(** * mk2bash: Make-style assignments rewritten as shell assignments

    A shallow embedding of [scripts/mk2bash.py] and the properties of its
    line translator.

    - [PyStr]: Python [str] values as lists of code points, with the string
      methods the script calls ([strip], [startswith], [split]).
    - [Re]: a backtracking matcher for the fragment of Python's [re] syntax
      the script uses, with [re.match] and [re.sub].
    - [Mk2bash]: the script itself, in a small state-and-exception monad over
      the two output streams and a read-only file system.
    - [Spec]: the wording of the specification, as predicates to compare the
      script against.
    - [Samples]: a few files to run the script on.
    - [More]: notions for the properties beyond the claims. *)

From Stdlib Require Import List NArith Bool String Ascii Arith Lia.
Import ListNotations.

Set Implicit Arguments.

(* ================================================================= *)
(** ** Python strings *)

Module PyStr.

(** A [str] is a sequence of Unicode code points. *)
Definition pystr := list N.

(** String literals of the script, all of them ASCII. *)
Definition py (s : string) : pystr :=
  map N_of_ascii (list_ascii_of_string s).

(** Whitespace as [str.isspace], [str.strip] and the pattern [\s] see it
    (CPython's [Py_UNICODE_ISSPACE]). *)
Definition isspace (c : N) : bool :=
  ((9 <=? c) && (c <=? 13) || (28 <=? c) && (c <=? 32)
   || (c =? 133) || (c =? 160) || (c =? 5760)
   || (8192 <=? c) && (c <=? 8202)
   || (c =? 8232) || (c =? 8233) || (c =? 8239) || (c =? 8287)
   || (c =? 12288))%N.

(** The longest prefix of characters in a class, and what follows it. *)
Fixpoint takewhile (p : N -> bool) (s : pystr) : pystr :=
  match s with
  | c :: t => if p c then c :: takewhile p t else []
  | [] => []
  end.

Fixpoint dropwhile (p : N -> bool) (s : pystr) : pystr :=
  match s with
  | c :: t => if p c then dropwhile p t else s
  | [] => []
  end.

Definition lstrip (s : pystr) : pystr := dropwhile isspace s.

Definition rstrip (s : pystr) : pystr := rev (lstrip (rev s)).

(** [s.strip()] *)
Definition strip (s : pystr) : pystr := rstrip (lstrip s).

(** [s.startswith(prefix)] *)
Fixpoint startswith (s prefix : pystr) : bool :=
  match prefix, s with
  | [], _ => true
  | p :: ps, c :: cs => (c =? p)%N && startswith cs ps
  | _ :: _, [] => false
  end.

(** Truth value of a string: [not s] holds of the empty string only. *)
Definition is_empty (s : pystr) : bool :=
  match s with [] => true | _ :: _ => false end.

(** [s.split(sep)] for a separator of one character: never an empty
    list, [''.split(sep) == ['']]. *)
Fixpoint split (sep : N) (s : pystr) : list pystr :=
  match s with
  | [] => [[]]
  | c :: t =>
      if (c =? sep)%N then [] :: split sep t
      else match split sep t with
           | l :: ls => (c :: l) :: ls
           | [] => [[c]]
           end
  end.

(** No whitespace at the start, or at the end, of a string. *)
Definition no_lead_space (s : pystr) : bool :=
  match s with
  | c :: _ => negb (isspace c)
  | [] => true
  end.

Definition no_trail_space (s : pystr) : bool := no_lead_space (rev s).

End PyStr.

(* ================================================================= *)
(** ** Regular expressions *)

Module Re.
Import PyStr.

(** The constructs the two patterns of the script are written with.
    Repetition is greedy and ranges over one character class. *)
Inductive regex : Type :=
| Bol                                 (* ^ *)
| Eol                                 (* $ *)
| Lit (c : N)                         (* an escaped or plain character *)
| Plus (cls : N -> bool)              (* [...]+ *)
| Star (cls : N -> bool)              (* [...]*, \s*, .* *)
| Group (i : nat) (r : regex)         (* ( ... ), numbered *)
| Seq (r1 r2 : regex).

(** Character classes. *)
Definition upper_or_underscore (c : N) : bool :=      (* [A-Z_] *)
  ((65 <=? c) && (c <=? 90) || (c =? 95))%N.
Definition dot (c : N) : bool := negb (c =? 10)%N.    (* . without DOTALL *)
Definition not_rparen (c : N) : bool := negb (c =? 41)%N.  (* [^)] *)

Definition captures := list (nat * pystr).

(** Where a match ended: position, text left, groups. *)
Definition hit : Type := nat * pystr * captures.

(** Greedy repetition: the longest run first, one character given back
    at a time while the rest of the pattern fails. *)
Fixpoint star (cls : N -> bool) (k : nat -> pystr -> option hit)
         (pos : nat) (s : pystr) : option hit :=
  match s with
  | c :: t =>
      if cls c then
        match star cls k (S pos) t with
        | Some h => Some h
        | None => k pos s
        end
      else k pos s
  | [] => k pos []
  end.

(** The matcher, in continuation-passing style: [k] is the rest of the
    pattern. [pos] counts the characters before [s] in the subject. *)
Fixpoint m (r : regex) (k : nat -> pystr -> captures -> option hit)
         (pos : nat) (s : pystr) (caps : captures) : option hit :=
  match r with
  | Bol => if Nat.eqb pos 0 then k pos s caps else None
  | Eol =>
      match s with
      | [] => k pos s caps
      | [c] => if (c =? 10)%N then k pos s caps else None
      | _ => None
      end
  | Lit c =>
      match s with
      | c' :: t => if (c' =? c)%N then k (S pos) t caps else None
      | [] => None
      end
  | Plus cls =>
      match s with
      | c :: t =>
          if cls c then star cls (fun p t' => k p t' caps) (S pos) t
          else None
      | [] => None
      end
  | Star cls => star cls (fun p t => k p t caps) pos s
  | Group i r' =>
      m r' (fun p t caps' => k p t ((i, firstn (p - pos) s) :: caps'))
        pos s caps
  | Seq r1 r2 => m r1 (m r2 k) pos s caps
  end.

(** One attempt at one position. With [must_advance] an empty match at
    the starting position is refused. *)
Definition attempt (r : regex) (must_advance : bool)
           (pos : nat) (s : pystr) : option hit :=
  m r (fun p t caps =>
         if must_advance && Nat.eqb p pos then None
         else Some (p, t, caps))
    pos s [].

(** [re.match(r, s)]: anchored at the start of [s]. *)
Definition re_match (r : regex) (s : pystr) : option captures :=
  match attempt r false 0 s with
  | Some (_, _, caps) => Some caps
  | None => None
  end.

(** [match.group(i)] *)
Fixpoint group (caps : captures) (i : nat) : option pystr :=
  match caps with
  | (j, text) :: rest => if Nat.eqb j i then Some text else group rest i
  | [] => None
  end.

(** A replacement template: literal characters and group references. *)
Inductive titem : Type :=
| TLit (c : N)
| TGroup (i : nat).

Definition expand (tmpl : list titem) (caps : captures) : pystr :=
  flat_map (fun it =>
              match it with
              | TLit c => [c]
              | TGroup i => match group caps i with
                            | Some text => text
                            | None => []
                            end
              end) tmpl.

(** The loop of [re.sub]: leftmost matches, left to right, none
    overlapping; text between matches is copied. After an empty match
    the next one has to advance. *)
Fixpoint sub_loop (fuel : nat) (r : regex) (tmpl : list titem)
         (must_advance : bool) (pos : nat) (s : pystr) : pystr :=
  match fuel with
  | O => s
  | S fuel' =>
      match attempt r must_advance pos s with
      | Some (p, t, caps) =>
          expand tmpl caps ++
          match t with
          | [] => []
          | _ :: _ => sub_loop fuel' r tmpl (Nat.eqb p pos) p t
          end
      | None =>
          match s with
          | c :: s' => c :: sub_loop fuel' r tmpl false (S pos) s'
          | [] => []
          end
      end
  end.

(** [re.sub(r, tmpl, s)] *)
Definition re_sub (r : regex) (tmpl : list titem) (s : pystr) : pystr :=
  sub_loop (2 * List.length s + 2) r tmpl false 0 s.

End Re.

(* ================================================================= *)
(** ** The script *)

Module Mk2bash.
Import PyStr Re.

(** Why reading a file can fail: the exception classes met most often,
    and any other class, by its name, that is not [FileNotFoundError] or
    one of its subclasses. *)
Inductive read_error : Type :=
| FileNotFoundError
| PermissionError
| IsADirectoryError
| UnicodeDecodeError
| OtherError (class_name : pystr).

(** What [open(path, 'r')] followed by [f.read()] gives: the decoded
    text, or the exception raised on the way. *)
Inductive read_result : Type :=
| Content (text : pystr)
| Fails (e : read_error).

Inductive exn : Type :=
| SystemExit (code : N)
| ReadError (e : read_error)
| TypeError.

(** The file system is only read; each stream holds the strings written
    by [print], oldest first ([print] ends each with a newline). *)
Record world : Type := World {
  fs : pystr -> read_result;
  stdout : list pystr;
  stderr : list pystr
}.

Inductive result (A : Type) : Type :=
| Ok (a : A)
| Raise (e : exn).
Arguments Ok {A} a.
Arguments Raise {A} e.

Definition M (A : Type) : Type := world -> result A * world.

Definition ret {A} (a : A) : M A := fun w => (Ok a, w).

Definition bind {A B} (c : M A) (f : A -> M B) : M B :=
  fun w => match c w with
           | (Ok a, w') => f a w'
           | (Raise e, w') => (Raise e, w')
           end.

Definition raise {A} (e : exn) : M A := fun w => (Raise e, w).

Notation "x <- c ;; k" := (bind c (fun x => k))
  (at level 61, c at next level, right associativity).
Notation "c ;; k" := (bind c (fun _ => k))
  (at level 61, right associativity).

(** [try: body / except <handles>: handler] *)
Definition try_except {A} (body : M A) (handles : exn -> bool)
           (handler : M A) : M A :=
  fun w => match body w with
           | (Ok a, w') => (Ok a, w')
           | (Raise e, w') => if handles e then handler w'
                              else (Raise e, w')
           end.

(** [print(s)] and [print(s, file=sys.stderr)] *)
Definition print (s : pystr) : M unit :=
  fun w => (Ok tt, World (fs w) (stdout w ++ [s]) (stderr w)).

Definition eprint (s : pystr) : M unit :=
  fun w => (Ok tt, World (fs w) (stdout w) (stderr w ++ [s])).

(** [sys.exit(code)] *)
Definition sys_exit {A} (code : N) : M A := raise (SystemExit code).

(** [with open(path, 'r') as f: content = f.read()] *)
Definition read_text (path : pystr) : M pystr :=
  fun w => match fs w path with
           | Content text => (Ok text, w)
           | Fails e => (Raise (ReadError e), w)
           end.

(** [for x in xs: body]; a [continue] is a body that returns early. *)
Fixpoint for_each {X} (xs : list X) (body : X -> M unit) : M unit :=
  match xs with
  | [] => ret tt
  | x :: rest => body x ;; for_each rest body
  end.

Definition is_FileNotFoundError (e : exn) : bool :=
  match e with
  | ReadError FileNotFoundError => true
  | _ => false
  end.

(** The assignment pattern: [^], group 1 [[A-Z_]+], [\s*], [:=], [\s*],
    group 2 [.*], [$]. *)
Definition ASSIGN_RE : regex :=
  Seq Bol
    (Seq (Group 1 (Plus upper_or_underscore))
       (Seq (Star isspace)
          (Seq (Lit 58) (Seq (Lit 61)
             (Seq (Star isspace)
                (Seq (Group 2 (Star dot)) Eol)))))).

(** [r'\$\(([^)]+)\)'] and its replacement [r'${\1}'] *)
Definition EXPANSION_RE : regex :=
  Seq (Lit 36) (Seq (Lit 40) (Seq (Group 1 (Plus not_rparen)) (Lit 41))).

Definition EXPANSION_TMPL : list titem :=
  [TLit 36; TLit 123; TGroup 1; TLit 125].

(** The body of the loop over the lines. *)
Definition process_line (line : pystr) : M unit :=
  if startswith (strip line) (py "#") || is_empty (strip line) then
    ret tt
  else
    match re_match ASSIGN_RE (strip line) with
    | Some mt =>
        match group mt 1, group mt 2 with
        | Some var_name, Some var_value =>
            let var_value := re_sub EXPANSION_RE EXPANSION_TMPL var_value in
            print (var_name ++ py "=" ++ var_value)
        | _, _ => raise TypeError
        end
    | None => ret tt
    end.

Definition convert_make_to_bash (make_file : pystr) : M unit :=
  content <-
    try_except (read_text make_file) is_FileNotFoundError
      (eprint (py "Error: Could not find " ++ make_file) ;;
       sys_exit 1) ;;
  print (py "# Generated from config.mk - DO NOT EDIT DIRECTLY") ;;
  print (py "# Edit config.mk instead and run 'make .github/workflows/config.env'") ;;
  print [] ;;
  for_each (split 10 content) process_line.

(** [main], with [sys.argv] as its argument. *)
Definition main (argv : list pystr) : M unit :=
  (if negb (Nat.eqb (List.length argv) 2) then
     eprint (py "Usage: mk2bash.py <make_config_file>") ;;
     sys_exit 1
   else ret tt) ;;
  let make_file := nth 1 argv [] in
  convert_make_to_bash make_file.

(** What a run of the script leaves behind: the strings the script
    printed to each stream ([out], [err]), the exception the interpreter
    reported because nothing caught it (its traceback follows the
    script's own lines on the error stream: see [error_stream] for the
    stream as a whole), and the exit status. *)
Record outcome : Type := Outcome {
  out : list pystr;
  err : list pystr;
  uncaught : option exn;
  status : N
}.

(** The call of [main] at the end of the script, under the interpreter: status 0
    when [main] returns, the code of [sys.exit], and 1 with a traceback
    for any other exception. *)
Definition run_script (argv : list pystr) (files : pystr -> read_result)
  : outcome :=
  match main argv (World files [] []) with
  | (Ok _, w) => Outcome (stdout w) (stderr w) None 0
  | (Raise (SystemExit code), w) => Outcome (stdout w) (stderr w) None code
  | (Raise e, w) => Outcome (stdout w) (stderr w) (Some e) 1
  end.

(** What the error stream of a run holds, in order: the lines the script
    printed to it, then, when an exception went uncaught, the traceback
    the interpreter writes for that exception before it exits. *)
Inductive stderr_entry : Type :=
| Printed (line : pystr)
| Traceback (e : exn).

Definition error_stream (r : outcome) : list stderr_entry :=
  map Printed (err r)
  ++ match uncaught r with
     | Some e => [Traceback e]
     | None => []
     end.

(** The line one input line gives rise to, if any: the loop body
    without the stream. *)
Definition line_output (line : pystr) : option pystr :=
  if startswith (strip line) (py "#") || is_empty (strip line) then None
  else
    match re_match ASSIGN_RE (strip line) with
    | Some mt =>
        match group mt 1, group mt 2 with
        | Some var_name, Some var_value =>
            Some (var_name ++ py "="
                    ++ re_sub EXPANSION_RE EXPANSION_TMPL var_value)
        | _, _ => None
        end
    | None => None
    end.

Definition HEADER : list pystr :=
  [py "# Generated from config.mk - DO NOT EDIT DIRECTLY";
   py "# Edit config.mk instead and run 'make .github/workflows/config.env'";
   []].

End Mk2bash.


(* ================================================================= *)
(** ** The specification's wording *)

Module Spec.
Import PyStr Re Mk2bash.

(** A filter-map keeps the order of its input. *)
Fixpoint filter_map {A B} (f : A -> option B) (l : list A) : list B :=
  match l with
  | [] => []
  | a :: rest =>
      match f a with
      | Some b => b :: filter_map f rest
      | None => filter_map f rest
      end
  end.

(** [NAME := value]: one or more uppercase letters or underscores, then
    [:=] optionally surrounded by whitespace, then the remainder of the
    line as the value. *)
Definition assignment (s name value : pystr) : Prop :=
  exists ws1 ws2,
    s = name ++ ws1 ++ py ":=" ++ ws2 ++ value /\
    name <> [] /\
    forallb upper_or_underscore name = true /\
    forallb isspace ws1 = true /\
    forallb isspace ws2 = true /\
    no_lead_space value = true.

(** The same reading as a function: the name and the value of a line of
    that shape. *)
Definition parse_assignment (s : pystr) : option (pystr * pystr) :=
  match takewhile upper_or_underscore s,
        lstrip (dropwhile upper_or_underscore s) with
  | (_ :: _) as name, a :: b :: rest =>
      if (a =? 58)%N && (b =? 61)%N then Some (name, lstrip rest) else None
  | _, _ => None
  end.

(** [s] opens with a reference [$(X)], [X] a run of characters other
    than the closing parenthesis. *)
Definition starts_with_ref (s : pystr) : Prop :=
  exists X rest,
    X <> [] /\ forallb not_rparen X = true /\
    s = py "$(" ++ X ++ py ")" ++ rest.

(** The value with every [$(X)] replaced by [${X}] and no other
    character altered, references taken from left to right. *)
Inductive Rewritten : pystr -> pystr -> Prop :=
| Rw_end : Rewritten [] []
| Rw_ref X rest rest' :
    X <> [] -> forallb not_rparen X = true ->
    Rewritten rest rest' ->
    Rewritten (py "$(" ++ X ++ py ")" ++ rest)
              (py "${" ++ X ++ py "}" ++ rest')
| Rw_chr c rest rest' :
    ~ starts_with_ref (c :: rest) ->
    Rewritten rest rest' ->
    Rewritten (c :: rest) (c :: rest').

(** The reference [s] opens with, if any: its name and the text after
    its closing parenthesis. *)
Definition ref_at (s : pystr) : option (pystr * pystr) :=
  match s with
  | a :: b :: t =>
      if (a =? 36)%N && (b =? 40)%N then
        match takewhile not_rparen t, dropwhile not_rparen t with
        | (_ :: _) as X, _ :: rest => Some (X, rest)
        | _, _ => None
        end
      else None
  | _ => None
  end.

(** Every [$(] of [s] is closed by a parenthesis further on in [s]. *)
Fixpoint closed_refs (s : pystr) : bool :=
  match s with
  | c :: t =>
      (if (c =? 36)%N && startswith t (py "(")
       then existsb (N.eqb 41) t else true)
      && closed_refs t
  | [] => true
  end.

(** A shell assignment line [NAME=value]. *)
Definition shell_assignment (o name value : pystr) : Prop :=
  o = name ++ py "=" ++ value /\
  name <> [] /\ forallb upper_or_underscore name = true.

End Spec.

(* ================================================================= *)
(** ** Sample inputs *)

Module Samples.
Import PyStr Re Mk2bash.

Fixpoint str_eqb (a b : pystr) : bool :=
  match a, b with
  | [], [] => true
  | x :: a', y :: b' => (x =? y)%N && str_eqb a' b'
  | _, _ => false
  end.

(** The example of the specification, and a file with lines of every
    kind. *)
Definition config_mk : pystr := py "FOO := bar
BAZ := $(FOO)/baz
# comment

".

Definition mixed_mk : pystr := py "# settings
  OUT_DIR :=   build/$(MODE)  
all: $(OUT_DIR)
CC = gcc
CFLAGS ?= -O2
LIBS += -lm
PAIR := $(A)$()$(B)
".

(** A value in which an empty pair of parentheses follows an open [$(]. *)
Definition nested_mk : pystr := py "EMPTY := $($()".

(** A file system with these files, a file nobody may read, and nothing
    else. *)
Definition sample_fs (path : pystr) : read_result :=
  if str_eqb path (py "config.mk") then Content config_mk
  else if str_eqb path (py "mixed.mk") then Content mixed_mk
  else if str_eqb path (py "nested.mk") then Content nested_mk
  else if str_eqb path (py "secret.mk") then Fails PermissionError
  else Fails FileNotFoundError.

Definition prog : pystr := py "mk2bash.py".

End Samples.

(* ================================================================= *)
(** ** Further notions *)

Module More.
Import PyStr Re Mk2bash Samples.

(** The text on standard output: [print] ends each string with a
    newline. *)
Definition stdout_text (printed : list pystr) : pystr :=
  flat_map (fun s => s ++ [10%N]) printed.

(** Whether [$(] occurs in [s]. *)
Fixpoint has_open (s : pystr) : bool :=
  match s with
  | c :: t => (c =? 36)%N && startswith t (py "(") || has_open t
  | [] => false
  end.

(** The same character, or a parenthesis and the brace that replaces
    it. *)
Definition braced (a b : N) : bool :=
  ((a =? b) || (a =? 40) && (b =? 123) || (a =? 41) && (b =? 125))%N.

(** The sample files, the two of them joined by a newline, and what the
    script prints for the first. *)
Definition more_fs (path : pystr) : read_result :=
  if str_eqb path (py "both.mk") then Content (config_mk ++ 10%N :: mixed_mk)
  else if str_eqb path (py "config.env") then
    Content (stdout_text (out (run_script [prog; py "config.mk"] sample_fs)))
  else sample_fs path.

End More.

Import PyStr Re Mk2bash Spec Samples More.

(* ================================================================= *)
(** ** Strings: runs, stripping, splitting *)

Section Runs.
Variable p : N -> bool.

Lemma takewhile_dropwhile (s : pystr) :
  takewhile p s ++ dropwhile p s = s.
Proof.
  induction s as [|c t IH]; simpl; [reflexivity|].
  destruct (p c); simpl; [now rewrite IH | reflexivity].
Qed.

Lemma takewhile_forallb (s : pystr) : forallb p (takewhile p s) = true.
Proof.
  induction s as [|c t IH]; simpl; [reflexivity|].
  destruct (p c) eqn:E; simpl; [now rewrite E | reflexivity].
Qed.

Lemma dropwhile_head (s : pystr) c t :
  dropwhile p s = c :: t -> p c = false.
Proof.
  induction s as [|a s IH]; simpl; [discriminate|].
  destruct (p a) eqn:E; [exact IH|].
  intros [= <- _]. exact E.
Qed.

Lemma run_then_stop (X : pystr) c rest :
  forallb p X = true -> p c = false ->
  takewhile p (X ++ c :: rest) = X /\ dropwhile p (X ++ c :: rest) = c :: rest.
Proof.
  intros HX Hc. induction X as [|a X IH]; simpl in *.
  - now rewrite Hc.
  - apply andb_prop in HX as [Ha HX]. rewrite Ha.
    destruct (IH HX) as [-> ->]. now split.
Qed.

Lemma run_to_end (X : pystr) :
  forallb p X = true -> takewhile p X = X /\ dropwhile p X = [].
Proof.
  intros HX. induction X as [|a X IH]; simpl in *; [now split|].
  apply andb_prop in HX as [Ha HX]. rewrite Ha.
  destruct (IH HX) as [-> ->]. now split.
Qed.

Lemma firstn_takewhile (s : pystr) :
  firstn (List.length (takewhile p s)) s = takewhile p s.
Proof.
  induction s as [|c t IH]; simpl; [reflexivity|].
  destruct (p c); simpl; [now rewrite IH | reflexivity].
Qed.

Lemma dropwhile_incl (s : pystr) c : In c (dropwhile p s) -> In c s.
Proof.
  intros H. rewrite <- (takewhile_dropwhile s). apply in_or_app. now right.
Qed.

Lemma dropwhile_stops (s : pystr) :
  match s with c :: _ => p c = false | [] => True end ->
  dropwhile p s = s.
Proof. destruct s as [|c t]; simpl; [reflexivity|]. now intros ->. Qed.
End Runs.

Lemma lstrip_no_lead (s : pystr) : no_lead_space (lstrip s) = true.
Proof.
  unfold lstrip, no_lead_space.
  destruct (dropwhile isspace s) as [|c t] eqn:E; [reflexivity|].
  now rewrite (dropwhile_head _ _ E).
Qed.

Lemma lstrip_fixed (s : pystr) : no_lead_space s = true -> lstrip s = s.
Proof.
  intros H. apply dropwhile_stops. destruct s as [|c t]; [exact I|].
  simpl in H. now destruct (isspace c).
Qed.

Lemma lstrip_spaces (ws s : pystr) :
  forallb isspace ws = true -> lstrip (ws ++ s) = lstrip s.
Proof.
  intros H. induction ws as [|c ws IH]; simpl in *; [reflexivity|].
  apply andb_prop in H as [Hc H]. unfold lstrip in *. simpl.
  rewrite Hc. now apply IH.
Qed.

Lemma lstrip_incl (s : pystr) c : In c (lstrip s) -> In c s.
Proof. apply dropwhile_incl. Qed.

Lemma strip_incl (s : pystr) c : In c (strip s) -> In c s.
Proof.
  unfold strip, rstrip. intros H.
  apply lstrip_incl. apply in_rev. apply lstrip_incl. now apply in_rev in H.
Qed.

Lemma strip_no_trail (s : pystr) : no_trail_space (strip s) = true.
Proof.
  unfold no_trail_space, strip, rstrip. rewrite rev_involutive.
  apply lstrip_no_lead.
Qed.

Lemma rstrip_prefix (s : pystr) : exists ws, s = rstrip s ++ ws.
Proof.
  unfold rstrip, lstrip. exists (rev (takewhile isspace (rev s))).
  rewrite <- rev_app_distr, takewhile_dropwhile. now rewrite rev_involutive.
Qed.

Lemma strip_no_lead (s : pystr) : no_lead_space (strip s) = true.
Proof.
  unfold strip. pose proof (lstrip_no_lead s) as H.
  destruct (rstrip_prefix (lstrip s)) as [ws E].
  destruct (rstrip (lstrip s)) as [|c t]; [reflexivity|].
  rewrite E in H. exact H.
Qed.

Lemma split_no_sep (sep : N) (s : pystr) :
  Forall (fun l => ~ In sep l) (split sep s).
Proof.
  induction s as [|c t IH]; simpl.
  - constructor; [intros []|constructor].
  - destruct (N.eqb_spec c sep) as [->|Hne].
    + constructor; [intros []|exact IH].
    + destruct (split sep t) as [|l ls]; constructor.
      * intros [H|[]]. now apply Hne.
      * constructor.
      * inversion IH as [|? ? Hl _]; subst. intros [H|H]; [now apply Hne|now apply Hl].
      * now inversion IH.
Qed.

Lemma split_nonempty (sep : N) (s : pystr) : split sep s <> [].
Proof.
  destruct s as [|c t]; simpl; [discriminate|].
  destruct (c =? sep)%N; [discriminate|].
  destruct (split sep t); discriminate.
Qed.

(* ================================================================= *)
(** ** The matcher on the two patterns *)

Section Greedy.
Variable cls : N -> bool.
Variable k : nat -> pystr -> option hit.

(** When the rest of the pattern cannot start with a character of the
    class, only the longest run is worth trying. *)
Lemma star_longest_only (pos : nat) (s : pystr) :
  (forall q c t, cls c = true -> k q (c :: t) = None) ->
  star cls k pos s
  = k (pos + List.length (takewhile cls s)) (dropwhile cls s).
Proof.
  intros Hk. revert pos. induction s as [|c t IH]; intros pos; simpl.
  - now rewrite Nat.add_0_r.
  - destruct (cls c) eqn:E; simpl.
    + rewrite IH, <- plus_n_Sm. simpl.
      destruct (k (S (pos + _)) _) eqn:Ek; [reflexivity|].
      now apply Hk.
    + now rewrite Nat.add_0_r.
Qed.

(** The longest run is tried first. *)
Lemma star_longest_first (pos : nat) (s : pystr) h :
  k (pos + List.length (takewhile cls s)) (dropwhile cls s) = Some h ->
  star cls k pos s = Some h.
Proof.
  revert pos. induction s as [|c t IH]; intros pos; simpl.
  - now rewrite Nat.add_0_r.
  - destruct (cls c) eqn:E; simpl.
    + rewrite <- plus_n_Sm. intros H. now rewrite (IH (S pos) H).
    + now rewrite Nat.add_0_r.
Qed.
End Greedy.

Lemma isspace_spec (c : N) :
  isspace c = true <->
  (9 <= c <= 13 \/ 28 <= c <= 32 \/ c = 133 \/ c = 160 \/ c = 5760 \/
   8192 <= c <= 8202 \/ c = 8232 \/ c = 8233 \/ c = 8239 \/ c = 8287 \/
   c = 12288)%N.
Proof.
  unfold isspace.
  rewrite !orb_true_iff, !andb_true_iff, !N.leb_le, !N.eqb_eq. tauto.
Qed.

Lemma upper_spec (c : N) :
  upper_or_underscore c = true <-> (65 <= c <= 90 \/ c = 95)%N.
Proof.
  unfold upper_or_underscore.
  rewrite !orb_true_iff, !andb_true_iff, !N.leb_le, !N.eqb_eq. tauto.
Qed.

Lemma upper_not_space (c : N) :
  upper_or_underscore c = true -> isspace c = false.
Proof.
  intros H%upper_spec. destruct (isspace c) eqn:E; [|reflexivity].
  apply isspace_spec in E. lia.
Qed.

Lemma upper_not_colon (c : N) :
  upper_or_underscore c = true -> (c =? 58)%N = false.
Proof. intros H%upper_spec. apply N.eqb_neq. lia. Qed.

Lemma space_not_colon (c : N) : isspace c = true -> (c =? 58)%N = false.
Proof. intros H%isspace_spec. apply N.eqb_neq. lia. Qed.

Lemma firstn_cons_helper (p : N -> bool) c (t : pystr) :
  firstn (1 + List.length (takewhile p t) - 0) (c :: t) = c :: takewhile p t.
Proof. rewrite Nat.sub_0_r. simpl. now rewrite firstn_takewhile. Qed.

Lemma assign_head (s : pystr) : exists pos,
  attempt ASSIGN_RE false 0 s =
  match takewhile upper_or_underscore s,
        lstrip (dropwhile upper_or_underscore s) with
  | (_ :: _) as name, a :: b :: rest =>
      if (a =? 58)%N && (b =? 61)%N then
        m (Seq (Star isspace) (Seq (Group 2 (Star dot)) Eol))
          (fun p t caps => Some (p, t, caps)) pos rest [(1, name)]
      else None
  | _, _ => None
  end.
Proof.
  unfold attempt, ASSIGN_RE. cbn [m Nat.eqb andb].
  destruct s as [|c t]; [now exists 0|].
  cbn [takewhile dropwhile].
  destruct (upper_or_underscore c) eqn:Ec; [|now exists 0].
  rewrite star_longest_only.
  2:{ intros q c' t' Hc'. cbn [star]. rewrite (upper_not_space _ Hc').
      now rewrite (upper_not_colon _ Hc'). }
  rewrite star_longest_only.
  2:{ intros q c' t' Hc'. now rewrite (space_not_colon _ Hc'). }
  rewrite firstn_cons_helper. unfold lstrip.
  destruct (dropwhile isspace (dropwhile upper_or_underscore t))
    as [|a [|b rest]]; [now exists 0| |].
  - exists 0. now destruct (a =? 58)%N.
  - eexists. destruct (a =? 58)%N; [|reflexivity].
    destruct (b =? 61)%N; reflexivity.
Qed.

Lemma dot_no_newline (s : pystr) : ~ In 10%N s -> forallb dot s = true.
Proof.
  intros H. apply forallb_forall. intros c Hc. unfold dot.
  destruct (N.eqb_spec c 10) as [->|]; [contradiction|reflexivity].
Qed.

Lemma assign_tail (pos : nat) (rest : pystr) (caps : captures) :
  ~ In 10%N rest ->
  m (Seq (Star isspace) (Seq (Group 2 (Star dot)) Eol))
    (fun p t caps => Some (p, t, caps)) pos rest caps
  = Some (pos + List.length rest, [], (2, lstrip rest) :: caps).
Proof.
  intros Hnl. cbn [m].
  apply star_longest_first. apply star_longest_first.
  assert (Hd : forallb dot (lstrip rest) = true).
  { apply dot_no_newline. intros H. apply Hnl. now apply lstrip_incl. }
  destruct (run_to_end dot _ Hd) as [E1 E2]. fold (lstrip rest).
  rewrite E1, E2.
  replace (pos + List.length (takewhile isspace rest)
           + List.length (lstrip rest)
           - (pos + List.length (takewhile isspace rest)))
    with (List.length (lstrip rest)) by lia.
  rewrite firstn_all.
  replace (List.length rest)
    with (List.length (takewhile isspace rest) + List.length (lstrip rest)).
  - now rewrite Nat.add_assoc.
  - unfold lstrip. now rewrite <- length_app, takewhile_dropwhile.
Qed.

(** On a subject without a newline, [re.match] with the assignment
    pattern reads a line the way the specification words it. *)
Lemma re_match_assign (s : pystr) :
  ~ In 10%N s ->
  re_match ASSIGN_RE s
  = match parse_assignment s with
    | Some (name, value) => Some [(2, value); (1, name)]
    | None => None
    end.
Proof.
  intros Hnl. unfold re_match, parse_assignment.
  destruct (assign_head s) as [pos ->].
  destruct (takewhile upper_or_underscore s) as [|n0 name]; [reflexivity|].
  destruct (lstrip (dropwhile upper_or_underscore s))
    as [|a [|b rest]] eqn:E; try reflexivity.
  destruct ((a =? 58)%N && (b =? 61)%N); [|reflexivity].
  rewrite assign_tail; [reflexivity|].
  intros H. apply Hnl.
  apply (dropwhile_incl upper_or_underscore), lstrip_incl.
  rewrite E. now right; right.
Qed.

(** Without the name or the [:=], no match, whatever the subject. *)
Lemma re_match_assign_none (s : pystr) :
  parse_assignment s = None -> re_match ASSIGN_RE s = None.
Proof.
  unfold re_match, parse_assignment.
  destruct (assign_head s) as [pos ->].
  destruct (takewhile upper_or_underscore s) as [|n0 name]; [reflexivity|].
  destruct (lstrip (dropwhile upper_or_underscore s))
    as [|a [|b rest]]; try reflexivity.
  now destruct ((a =? 58)%N && (b =? 61)%N).
Qed.

(** The function and the relation read a line alike. *)
Lemma parse_assignment_spec (s name value : pystr) :
  parse_assignment s = Some (name, value) <-> assignment s name value.
Proof.
  unfold parse_assignment, assignment. split.
  - pose proof (takewhile_dropwhile upper_or_underscore s) as E1.
    pose proof (takewhile_forallb upper_or_underscore s) as F1.
    destruct (takewhile upper_or_underscore s) as [|n0 n1] eqn:En;
      [discriminate|].
    pose proof (takewhile_dropwhile isspace
                  (dropwhile upper_or_underscore s)) as E2.
    pose proof (takewhile_forallb isspace
                  (dropwhile upper_or_underscore s)) as F2.
    unfold lstrip at 1.
    destruct (dropwhile isspace (dropwhile upper_or_underscore s))
      as [|a [|b rest]]; try discriminate.
    destruct (N.eqb_spec a 58) as [->|]; [|discriminate].
    destruct (N.eqb_spec b 61) as [->|]; [|discriminate].
    simpl. intros [= <- <-].
    exists (takewhile isspace (dropwhile upper_or_underscore s)),
           (takewhile isspace rest).
    repeat split.
    + rewrite <- E1 at 1. f_equal. rewrite <- E2 at 1. f_equal.
      change (py ":=") with [58%N; 61%N]. simpl. do 2 f_equal.
      unfold lstrip. now rewrite takewhile_dropwhile.
    + discriminate.
    + exact F1.
    + exact F2.
    + apply takewhile_forallb.
    + apply lstrip_no_lead.
  - intros (ws1 & ws2 & -> & Hne & Hn & H1 & H2 & Hv).
    destruct name as [|n0 n1]; [contradiction|].
    assert (Hstop : upper_or_underscore
                      (hd 58%N (ws1 ++ py ":=" ++ ws2 ++ value)) = false).
    { destruct ws1 as [|w ws1]; [reflexivity|]. simpl in *.
      apply andb_prop in H1 as [Hw _].
      destruct (upper_or_underscore w) eqn:E; [|reflexivity].
      apply upper_not_space in E. congruence. }
    destruct (ws1 ++ py ":=" ++ ws2 ++ value) as [|x xs] eqn:Ex.
    { destruct ws1; discriminate. }
    simpl in Hstop.
    destruct (run_then_stop upper_or_underscore (n0 :: n1) x xs Hn Hstop)
      as [-> ->].
    rewrite <- Ex. rewrite lstrip_spaces by exact H1.
    unfold lstrip at 1. change (py ":=") with [58%N; 61%N]. simpl.
    rewrite lstrip_spaces by exact H2. now rewrite lstrip_fixed.
Qed.


(** One attempt with the expansion pattern finds the reference the
    subject opens with, and nothing else. *)
Lemma attempt_expansion (ma : bool) (pos : nat) (s : pystr) :
  attempt EXPANSION_RE ma pos s
  = match ref_at s with
    | Some (X, rest) => Some (pos + 3 + List.length X, rest, [(1, X)])
    | None => None
    end.
Proof.
  unfold attempt, EXPANSION_RE, ref_at. cbn [m].
  destruct s as [|a [|b t]]; try reflexivity.
  - now destruct (a =? 36)%N.
  - destruct (a =? 36)%N; [|reflexivity].
    destruct (b =? 40)%N; [|reflexivity]. cbn [andb].
    destruct t as [|c t]; [reflexivity|]. cbn [takewhile dropwhile].
    destruct (not_rparen c) eqn:Ec; [|reflexivity].
    rewrite star_longest_only.
    2:{ intros q c' t' Hc'. unfold not_rparen in Hc'.
        now destruct (c' =? 41)%N. }
    destruct (dropwhile not_rparen t) as [|c' t0] eqn:Ed; [reflexivity|].
    pose proof (dropwhile_head _ _ Ed) as Hc'. unfold not_rparen in Hc'.
    destruct (c' =? 41)%N; [|discriminate].
    replace (S (S (S (S pos)) + List.length (takewhile not_rparen t)) =? pos)
      with false by (symmetry; apply Nat.eqb_neq; lia).
    rewrite andb_false_r.
    replace (S (S (S pos)) + List.length (takewhile not_rparen t) - S (S pos))
      with (S (List.length (takewhile not_rparen t))) by lia.
    cbn [firstn]. rewrite firstn_takewhile. cbn [List.length].
    do 3 f_equal. lia.
Qed.

Lemma rparen_stop (X X' r r' : pystr) :
  forallb not_rparen X = true -> forallb not_rparen X' = true ->
  X ++ 41%N :: r = X' ++ 41%N :: r' -> X = X' /\ r = r'.
Proof.
  intros HX HX' E.
  destruct (run_then_stop not_rparen X 41%N r HX eq_refl) as [T D].
  destruct (run_then_stop not_rparen X' 41%N r' HX' eq_refl) as [T' D'].
  rewrite E in T, D. split; [congruence|]. rewrite D in D'. now injection D'.
Qed.

Lemma ref_at_spec (s X rest : pystr) :
  ref_at s = Some (X, rest) <->
  X <> [] /\ forallb not_rparen X = true /\
  s = py "$(" ++ X ++ py ")" ++ rest.
Proof.
  change (py "$(") with [36%N; 40%N]. change (py ")") with [41%N].
  unfold ref_at. split.
  - destruct s as [|a [|b t]]; try discriminate.
    destruct (N.eqb_spec a 36) as [->|]; [|discriminate].
    destruct (N.eqb_spec b 40) as [->|]; [|discriminate]. cbn [andb].
    pose proof (takewhile_dropwhile not_rparen t) as E.
    pose proof (takewhile_forallb not_rparen t) as F.
    destruct (takewhile not_rparen t) as [|x xs]; [discriminate|].
    destruct (dropwhile not_rparen t) as [|c r] eqn:Ed; [discriminate|].
    intros [= <- <-]. repeat split; [discriminate|exact F|].
    pose proof (dropwhile_head _ _ Ed) as Hc. unfold not_rparen in Hc.
    destruct (N.eqb_spec c 41) as [->|]; [|discriminate].
    simpl. now rewrite <- E.
  - intros (Hne & HX & ->). simpl.
    destruct (run_then_stop not_rparen X 41%N rest HX eq_refl) as [-> ->].
    destruct X; [contradiction|reflexivity].
Qed.

Lemma ref_at_none (s : pystr) : ref_at s = None <-> ~ starts_with_ref s.
Proof.
  unfold starts_with_ref. split.
  - intros E (X & rest & H). apply ref_at_spec in H. congruence.
  - intros H. destruct (ref_at s) as [[X rest]|] eqn:E; [|reflexivity].
    exfalso. apply H. exists X, rest. now apply ref_at_spec.
Qed.

(** What [re.sub] returns is the value rewritten as the specification
    words it. *)
Lemma sub_loop_rewritten (fuel : nat) (ma : bool) (pos : nat) (s : pystr) :
  List.length s < fuel ->
  Rewritten s (sub_loop fuel EXPANSION_RE EXPANSION_TMPL ma pos s).
Proof.
  revert ma pos s. induction fuel as [|fuel IH]; intros ma pos s Hlen; [lia|].
  cbn [sub_loop]. rewrite attempt_expansion.
  destruct (ref_at s) as [[X rest]|] eqn:E.
  - apply ref_at_spec in E as (Hne & HX & ->).
    change (expand EXPANSION_TMPL [(1, X)]) with (py "${" ++ X ++ py "}" ++ []).
    rewrite app_nil_r, <- !app_assoc.
    apply Rw_ref; [exact Hne|exact HX|].
    destruct rest as [|c rest]; [constructor|].
    apply IH. rewrite !length_app in Hlen. simpl in *. lia.
  - destruct s as [|c s']; [constructor|].
    apply Rw_chr; [now apply ref_at_none|].
    apply IH. simpl in Hlen. lia.
Qed.

Lemma re_sub_rewritten (s : pystr) :
  Rewritten s (re_sub EXPANSION_RE EXPANSION_TMPL s).
Proof. apply sub_loop_rewritten. lia. Qed.

(** The rewritten value is determined by the value. *)
Lemma Rewritten_fun (s a b : pystr) :
  Rewritten s a -> Rewritten s b -> a = b.
Proof.
  intros Ha. revert b.
  induction Ha as [|X rest rest' Hne HX Hr IH|c rest rest' Hno Hr IH];
    intros b Hb.
  - now inversion Hb.
  - change (py "$(") with [36%N; 40%N] in *.
    change (py ")") with [41%N] in *.
    inversion Hb as [|X0 r0 r0' Hne0 HX0 Hr0 E|c0 r0 r0' Hno0 Hr0 E].
    + destruct (rparen_stop _ _ _ _ HX0 HX E) as [-> ->].
      now rewrite (IH _ Hr0).
    + exfalso. apply Hno0. exists X, rest. subst. now repeat split.
  - inversion Hb as [|X0 r0 r0' Hne0 HX0 Hr0 E|c0 r0 r0' Hno0 Hr0 E].
    + exfalso. apply Hno. exists X0, r0. subst. now repeat split.
    + now rewrite (IH _ Hr0).
Qed.


(* ================================================================= *)
(** ** What rewriting keeps *)

Lemma no_trail_cons (c : N) (t : pystr) :
  no_trail_space (c :: t)
  = match t with [] => negb (isspace c) | _ :: _ => no_trail_space t end.
Proof.
  unfold no_trail_space. destruct t as [|x t]; [reflexivity|].
  change (rev (c :: x :: t)) with (rev (x :: t) ++ [c]).
  destruct (rev (x :: t)) as [|y ys] eqn:E; [|reflexivity].
  apply (f_equal (@List.length N)) in E. rewrite length_rev in E.
  discriminate.
Qed.

Lemma no_trail_app (a b : pystr) :
  b <> [] -> no_trail_space (a ++ b) = no_trail_space b.
Proof.
  intros Hb. induction a as [|c a IH]; [reflexivity|].
  simpl. rewrite no_trail_cons, IH.
  destruct (a ++ b) eqn:E; [|reflexivity].
  apply app_eq_nil in E as [_ ->]. contradiction.
Qed.

Lemma no_trail_app3 (a b c d : pystr) :
  d <> [] -> no_trail_space (a ++ b ++ c ++ d) = no_trail_space d.
Proof. intros Hd. rewrite !app_assoc. now apply no_trail_app. Qed.

Lemma Rewritten_nil (s' : pystr) : Rewritten [] s' -> s' = [].
Proof. intros H. now inversion H. Qed.

Lemma Rewritten_nonempty (s s' : pystr) :
  Rewritten s s' -> s <> [] -> s' <> [].
Proof. intros H Hs. destruct H; [contradiction| |]; discriminate. Qed.

Lemma Rewritten_no_lead (s s' : pystr) :
  Rewritten s s' -> no_lead_space s = true -> no_lead_space s' = true.
Proof. intros H. destruct H; [trivial|reflexivity|trivial]. Qed.

Lemma Rewritten_no_trail (s s' : pystr) :
  Rewritten s s' -> no_trail_space s = true -> no_trail_space s' = true.
Proof.
  induction 1 as [|X rest rest' Hne HX Hr IH|c rest rest' Hno Hr IH].
  - trivial.
  - destruct rest as [|r rest].
    + apply Rewritten_nil in Hr as ->. intros _.
      rewrite app_nil_r, app_assoc. now rewrite no_trail_app.
    + rewrite !no_trail_app3 by discriminate. intros H.
      rewrite no_trail_app3
        by (apply (Rewritten_nonempty Hr); discriminate).
      now apply IH.
  - rewrite !no_trail_cons. destruct rest as [|r rest].
    + now apply Rewritten_nil in Hr as ->.
    + intros H. pose proof (Rewritten_nonempty Hr) as Hn.
      destruct rest' as [|r' rest']; [now exfalso; apply Hn|].
      now apply IH.
Qed.

Lemma closed_refs_app (a b : pystr) :
  closed_refs (a ++ b) = true -> closed_refs b = true.
Proof.
  induction a as [|c a IH]; [trivial|]. simpl.
  intros H. apply andb_prop in H as [_ H]. now apply IH.
Qed.

Lemma first_rparen (t : pystr) :
  existsb (N.eqb 41) t = true ->
  exists a b, forallb not_rparen a = true /\ t = a ++ 41%N :: b.
Proof.
  induction t as [|c t IH]; cbn [existsb]; [discriminate|].
  destruct (N.eqb_spec 41 c) as [<-|Hne]; cbn [orb].
  - intros _. now exists [], t.
  - intros H. destruct (IH H) as (a & b & Ha & ->).
    exists (c :: a), b. split; [|reflexivity]. simpl. rewrite Ha.
    unfold not_rparen. destruct (N.eqb_spec c 41); [congruence|reflexivity].
Qed.

(** Text after closed references cannot turn a plain character into the
    opening of a reference. *)
Lemma no_ref_extends (c : N) (rest r : pystr) :
  closed_refs (c :: rest) = true ->
  ~ starts_with_ref (c :: rest) ->
  ~ starts_with_ref (c :: rest ++ py "$()" ++ r).
Proof.
  change (py "$()") with [36%N; 40%N; 41%N].
  intros Hc Hno (X & tail & Hne & HX & E).
  change (py "$(") with [36%N; 40%N] in E. change (py ")") with [41%N] in E.
  simpl in E. injection E as -> E.
  destruct rest as [|b rest1]; [discriminate|].
  simpl in E. injection E as -> E.
  simpl in Hc. apply andb_prop in Hc as [Hc _].
  replace (startswith rest1 []) with true in Hc by now destruct rest1.
  destruct (first_rparen _ Hc) as (a & bb & Ha & Et).
  rewrite Et, <- app_assoc in E. simpl in E.
  destruct (rparen_stop _ _ _ _ Ha HX E) as [-> _].
  apply Hno. exists X, bb. repeat split; [exact Hne|exact HX|].
  now rewrite Et.
Qed.

(** An empty pair of parentheses after closed references stays. *)
Lemma Rewritten_empty_ref (p p' r r' : pystr) :
  closed_refs p = true ->
  Rewritten p p' -> Rewritten r r' ->
  Rewritten (p ++ py "$()" ++ r) (p' ++ py "$()" ++ r').
Proof.
  intros Hc Hp Hr.
  induction Hp as [|X rest rest' Hne HX Hrest IH|c rest rest' Hno Hrest IH].
  - change (py "$()") with [36%N; 40%N; 41%N]. simpl.
    apply Rw_chr.
    { intros (X & t & Hne & HX & E). destruct X as [|x X]; [contradiction|].
      injection E as <- _. discriminate. }
    apply Rw_chr.
    { intros (X & t & _ & _ & E). discriminate. }
    apply Rw_chr.
    { intros (X & t & _ & _ & E). discriminate. }
    exact Hr.
  - rewrite <- !app_assoc. apply Rw_ref; [exact Hne|exact HX|].
    apply IH. rewrite !app_assoc in Hc. now apply closed_refs_app in Hc.
  - simpl. apply Rw_chr.
    + now apply no_ref_extends.
    + apply IH. simpl in Hc. now apply andb_prop in Hc as [_ Hc].
Qed.

(* ================================================================= *)
(** ** The script, stream by stream *)

Lemma filter_map_app {A B} (f : A -> option B) (l1 l2 : list A) :
  filter_map f (l1 ++ l2) = filter_map f l1 ++ filter_map f l2.
Proof.
  induction l1 as [|a l1 IH]; simpl; [reflexivity|].
  destruct (f a); simpl; now rewrite IH.
Qed.

Lemma filter_map_in {A B} (f : A -> option B) (l : list A) a b :
  In a l -> f a = Some b -> In b (filter_map f l).
Proof.
  intros Hin Hf. induction l as [|x l IH]; [contradiction|].
  simpl. destruct Hin as [->|Hin].
  - rewrite Hf. now left.
  - destruct (f x); [right|]; now apply IH.
Qed.

Lemma in_filter_map {A B} (f : A -> option B) (l : list A) b :
  In b (filter_map f l) -> exists a, In a l /\ f a = Some b.
Proof.
  induction l as [|x l IH]; [contradiction|]. simpl.
  destruct (f x) as [y|] eqn:E.
  - intros [<-|H]; [exists x; now split; [left|]|].
    destruct (IH H) as (a & Ha & Hf). exists a. split; [now right|exact Hf].
  - intros H. destruct (IH H) as (a & Ha & Hf).
    exists a. split; [now right|exact Hf].
Qed.

Lemma world_eta (w : world) : World (fs w) (stdout w) (stderr w) = w.
Proof. now destruct w. Qed.

(** The line of an input line, read the way the specification words it. *)
Lemma line_output_parse (line : pystr) :
  ~ In 10%N line ->
  line_output line
  = if startswith (strip line) (py "#") || is_empty (strip line) then None
    else match parse_assignment (strip line) with
         | Some (name, value) =>
             Some (name ++ py "="
                     ++ re_sub EXPANSION_RE EXPANSION_TMPL value)
         | None => None
         end.
Proof.
  intros Hnl. unfold line_output.
  destruct (startswith (strip line) (py "#") || is_empty (strip line));
    [reflexivity|].
  rewrite re_match_assign by (intros H; now apply Hnl, strip_incl).
  now destruct (parse_assignment (strip line)) as [[name value]|].
Qed.

(** One turn of the loop prints the line of its input line, if it has
    one, and does nothing else. *)
Lemma process_line_prints (line : pystr) (w : world) :
  ~ In 10%N line ->
  process_line line w
  = (Ok tt,
     World (fs w) (stdout w ++ filter_map line_output [line]) (stderr w)).
Proof.
  intros Hnl. unfold process_line, line_output. cbn [filter_map].
  destruct (startswith (strip line) (py "#") || is_empty (strip line)).
  { now rewrite app_nil_r, world_eta. }
  rewrite re_match_assign by (intros H; now apply Hnl, strip_incl).
  destruct (parse_assignment (strip line)) as [[name value]|].
  - reflexivity.
  - now rewrite app_nil_r, world_eta.
Qed.

Lemma for_each_lines (lines : list pystr) (w : world) :
  Forall (fun l => ~ In 10%N l) lines ->
  for_each lines process_line w
  = (Ok tt,
     World (fs w) (stdout w ++ filter_map line_output lines) (stderr w)).
Proof.
  intros H. revert w. induction H as [|line lines Hl _ IH]; intros w.
  - simpl. unfold ret. now rewrite app_nil_r, world_eta.
  - cbn [for_each]. unfold bind at 1. rewrite process_line_prints by exact Hl.
    rewrite IH. cbn [fs stdout stderr].
    rewrite <- app_assoc, <- filter_map_app. reflexivity.
Qed.

(** A run on a file that can be read. *)
Lemma run_reads (files : pystr -> read_result) (name path content : pystr) :
  files path = Content content ->
  run_script [name; path] files
  = Outcome (HEADER ++ filter_map line_output (split 10 content)) [] None 0.
Proof.
  intros Hf. unfold run_script, main, convert_make_to_bash.
  cbn [List.length Nat.eqb negb nth].
  unfold bind, ret, try_except, read_text, print. cbn [fs stdout stderr].
  rewrite Hf. rewrite for_each_lines by apply split_no_sep.
  reflexivity.
Qed.

(** A run on a file that cannot be read. *)
Lemma run_read_fails (files : pystr -> read_result) (name path : pystr) e :
  files path = Fails e ->
  run_script [name; path] files
  = match e with
    | FileNotFoundError =>
        Outcome [] [py "Error: Could not find " ++ path] None 1
    | _ => Outcome [] [] (Some (ReadError e)) 1
    end.
Proof.
  intros Hf. unfold run_script, main, convert_make_to_bash.
  cbn [List.length Nat.eqb negb nth].
  unfold bind, ret, try_except, read_text. cbn [fs stdout stderr].
  rewrite Hf. now destruct e.
Qed.

(** A run with the wrong number of arguments. *)
Lemma run_usage (files : pystr -> read_result) (argv : list pystr) :
  List.length argv <> 2 ->
  run_script argv files
  = Outcome [] [py "Usage: mk2bash.py <make_config_file>"] None 1.
Proof.
  intros Hn. unfold run_script, main.
  apply Nat.eqb_neq in Hn. rewrite Hn. reflexivity.
Qed.

Lemma assignment_not_skipped (s name value : pystr) :
  assignment s name value ->
  startswith s (py "#") || is_empty s = false.
Proof.
  intros (ws1 & ws2 & -> & Hne & Hn & _).
  destruct name as [|c name]; [contradiction|].
  simpl in Hn. apply andb_prop in Hn as [Hc%upper_spec _].
  change (py "#") with [35%N]. cbn [app startswith is_empty].
  rewrite orb_false_r. apply andb_false_intro1, N.eqb_neq. lia.
Qed.

Lemma line_output_assignment (line name value : pystr) :
  ~ In 10%N line ->
  assignment (strip line) name value ->
  line_output line
  = Some (name ++ py "=" ++ re_sub EXPANSION_RE EXPANSION_TMPL value).
Proof.
  intros Hnl Ha. rewrite line_output_parse by exact Hnl.
  rewrite (assignment_not_skipped Ha).
  apply parse_assignment_spec in Ha. now rewrite Ha.
Qed.

Lemma line_output_inv (line o : pystr) :
  ~ In 10%N line ->
  line_output line = Some o ->
  exists name value,
    assignment (strip line) name value /\
    o = name ++ py "=" ++ re_sub EXPANSION_RE EXPANSION_TMPL value.
Proof.
  intros Hnl. rewrite line_output_parse by exact Hnl.
  destruct (startswith (strip line) (py "#") || is_empty (strip line));
    [discriminate|].
  destruct (parse_assignment (strip line)) as [[name value]|] eqn:E;
    [|discriminate].
  intros [= <-]. exists name, value. split; [|reflexivity].
  now apply parse_assignment_spec.
Qed.

Lemma for_each_app {X} (a b : list X) (body : X -> M unit) (w : world) :
  for_each (a ++ b) body w = (for_each a body ;; for_each b body) w.
Proof.
  revert w. induction a as [|x a IH]; intros w; [reflexivity|].
  cbn [app for_each]. unfold bind in *.
  destruct (body x w) as [[[]|e] w']; [|reflexivity].
  now rewrite IH.
Qed.

(** A turn of the loop that changes nothing can be left out. *)
Lemma for_each_drop {X} (a b : list X) (x : X) (body : X -> M unit) :
  (forall w, body x w = (Ok tt, w)) ->
  forall w, for_each (a ++ x :: b) body w = for_each (a ++ b) body w.
Proof.
  intros Hx w. rewrite !for_each_app. unfold bind.
  destruct (for_each a body w) as [[[]|e] w']; [|reflexivity].
  cbn [for_each]. unfold bind. now rewrite Hx.
Qed.

Lemma no_trail_value (s name ws1 ws2 value : pystr) :
  s = name ++ ws1 ++ py ":=" ++ ws2 ++ value ->
  no_trail_space s = true -> no_trail_space value = true.
Proof.
  intros -> H. destruct value as [|c value]; [reflexivity|].
  rewrite !app_assoc in H. now rewrite no_trail_app in H.
Qed.

(** The shape of every line the loop prints. *)
Lemma line_output_shape (line o : pystr) :
  ~ In 10%N line ->
  line_output line = Some o ->
  exists name value,
    o = name ++ py "=" ++ value /\
    name <> [] /\ forallb upper_or_underscore name = true /\
    no_lead_space value = true /\ no_trail_space value = true.
Proof.
  intros Hnl Ho.
  destruct (line_output_inv _ Hnl Ho) as (name & v & Ha & ->).
  destruct Ha as (ws1 & ws2 & Es & Hne & Hn & _ & _ & Hv).
  exists name, (re_sub EXPANSION_RE EXPANSION_TMPL v).
  repeat split; trivial.
  - exact (Rewritten_no_lead (re_sub_rewritten v) Hv).
  - apply (Rewritten_no_trail (re_sub_rewritten v)).
    exact (no_trail_value _ _ _ _ Es (strip_no_trail line)).
Qed.

Lemma nth_error_two {A} (l : list A) i j a b :
  i < j -> nth_error l i = Some a -> nth_error l j = Some b ->
  exists l1 l2 l3, l = l1 ++ a :: l2 ++ b :: l3.
Proof.
  intros Hij Hi Hj.
  destruct (nth_error_split l i Hi) as (l1 & l2 & -> & Hlen).
  rewrite nth_error_app2 in Hj by lia.
  replace (j - List.length l1) with (S (j - i - 1)) in Hj by lia.
  simpl in Hj.
  destruct (nth_error_split l2 _ Hj) as (l3 & l4 & -> & _).
  now exists l1, l3, l4.
Qed.

(* ================================================================= *)
(** ** The script on the sample files *)

(** The example of the specification. *)
Example run_config_mk :
  run_script [prog; py "config.mk"] sample_fs
  = Outcome
      [py "# Generated from config.mk - DO NOT EDIT DIRECTLY";
       py "# Edit config.mk instead and run 'make .github/workflows/config.env'";
       py "";
       py "FOO=bar";
       py "BAZ=${FOO}/baz"]
      [] None 0.
Proof. reflexivity. Qed.

(** Comments, rules and the other assignment operators leave no line;
    whitespace around a value is gone. *)
Example run_mixed_mk :
  out (run_script [prog; py "mixed.mk"] sample_fs)
  = HEADER ++ [py "OUT_DIR=build/${MODE}"; py "PAIR=${A}$()${B}"].
Proof. reflexivity. Qed.

Example other_operators :
  map line_output
    [py "CC = gcc"; py "CFLAGS ?= -O2"; py "LIBS += -lm";
     py "all: $(OUT_DIR)"; py "lower := case"; py ":= nameless"]
  = [None; None; None; None; None; None].
Proof. reflexivity. Qed.

(** The substitution is textual: nothing is looked up, and a reference
    closes at the first parenthesis. *)
Example sub_nested :
  map (re_sub EXPANSION_RE EXPANSION_TMPL)
    [py "$(A)/$(B)"; py "$($(A))"; py "$()"; py "$(A"; py "${A}"; py "$( )"]
  = [py "${A}/${B}"; py "${$(A})"; py "$()"; py "$(A"; py "${A}"; py "${ }"].
Proof. reflexivity. Qed.

(* ================================================================= *)
(** ** The claims *)

(** C1: when the stripped form of an input line reads [NAME := value]
    (a name of uppercase letters and underscores, [:=] with optional
    whitespace on either side, the value), the run prints the line
    [NAME=value'], where [value'] is the value with every [$(X)] replaced
    by [${X}] and nothing else changed; the text of the value alone
    decides [value']. *)
Theorem C1_assignment_line_rewritten
  (files : pystr -> read_result) (name path content line NAME value : pystr) :
  files path = Content content ->
  In line (split 10 content) ->
  assignment (strip line) NAME value ->
  exists value',
    Rewritten value value' /\
    (forall v, Rewritten value v -> v = value') /\
    In (NAME ++ py "=" ++ value') (out (run_script [name; path] files)).
Proof.
  intros Hf Hin Ha.
  assert (Hnl : ~ In 10%N line).
  { exact (proj1 (Forall_forall _ _) (split_no_sep 10 content) _ Hin). }
  exists (re_sub EXPANSION_RE EXPANSION_TMPL value).
  split; [apply re_sub_rewritten|]. split.
  - intros v Hv. exact (Rewritten_fun Hv (re_sub_rewritten value)).
  - rewrite (run_reads _ name _ Hf). cbn [out].
    apply in_or_app. right.
    apply (filter_map_in _ _ _ Hin).
    now apply line_output_assignment.
Qed.

Lemma C1_assignment_line_rewritten_witness :
  exists value',
    Rewritten (py "$(FOO)/baz") value' /\
    (forall v, Rewritten (py "$(FOO)/baz") v -> v = value') /\
    In (py "BAZ" ++ py "=" ++ value')
       (out (run_script [prog; py "config.mk"] sample_fs)).
Proof.
  apply (@C1_assignment_line_rewritten sample_fs prog (py "config.mk")
           config_mk (py "BAZ := $(FOO)/baz") (py "BAZ") (py "$(FOO)/baz")).
  - reflexivity.
  - vm_compute. auto.
  - exists (py " "), (py " "). repeat split. discriminate.
Defined.

(** C3: an input line whose stripped form is not empty, is not a comment
    and does not read as an assignment (a rule, or an assignment with
    another operator) makes its turn of the loop return at once, the
    streams as they were and no exception raised; the loop runs as it
    would without the line, and so does the whole script: its output is
    that of the other lines, its status 0. *)
Theorem C3_other_lines_dropped (line : pystr) :
  strip line <> [] ->
  startswith (strip line) (py "#") = false ->
  (forall NAME value, ~ assignment (strip line) NAME value) ->
  (forall w, process_line line w = (Ok tt, w)) /\
  (forall before after w,
      for_each (before ++ line :: after) process_line w
      = for_each (before ++ after) process_line w) /\
  (forall files name path content before after,
      files path = Content content ->
      split 10 content = before ++ line :: after ->
      run_script [name; path] files
      = Outcome (HEADER ++ filter_map line_output (before ++ after))
          [] None 0).
Proof.
  intros Hne Hc Hno.
  assert (Hm : re_match ASSIGN_RE (strip line) = None).
  { apply re_match_assign_none.
    destruct (parse_assignment (strip line)) as [[n v]|] eqn:Ep;
      [|reflexivity].
    exfalso. apply (Hno n v). now apply parse_assignment_spec. }
  assert (Hs : startswith (strip line) (py "#") || is_empty (strip line)
               = false).
  { rewrite Hc. now destruct (strip line). }
  assert (H : forall w, process_line line w = (Ok tt, w)).
  { intros w. unfold process_line. now rewrite Hs, Hm. }
  split; [exact H|]. split.
  - intros before after. now apply for_each_drop.
  - intros files name path content before after Hf Hsp.
    rewrite (run_reads _ name _ Hf), Hsp, !filter_map_app.
    cbn [filter_map]. unfold line_output at 2. now rewrite Hs, Hm.
Qed.

Lemma C3_other_lines_dropped_witness :
  (forall w, process_line (py "target: dep") w = (Ok tt, w)) /\
  (forall before after w,
      for_each (before ++ py "target: dep" :: after) process_line w
      = for_each (before ++ after) process_line w) /\
  (forall files name path content before after,
      files path = Content content ->
      split 10 content = before ++ py "target: dep" :: after ->
      run_script [name; path] files
      = Outcome (HEADER ++ filter_map line_output (before ++ after))
          [] None 0).
Proof.
  apply (C3_other_lines_dropped (py "target: dep")).
  - discriminate.
  - reflexivity.
  - intros NAME value H%parse_assignment_spec. discriminate H.
Defined.

(** C4: an input line that is empty once stripped, or then begins with
    [#], makes its turn of the loop return at once, the streams as they
    were; the loop runs as it would without the line, and so does the
    whole script. *)
Theorem C4_blank_and_comment_lines_skipped (line : pystr) :
  strip line = [] \/ startswith (strip line) (py "#") = true ->
  (forall w, process_line line w = (Ok tt, w)) /\
  (forall before after w,
      for_each (before ++ line :: after) process_line w
      = for_each (before ++ after) process_line w) /\
  (forall files name path content before after,
      files path = Content content ->
      split 10 content = before ++ line :: after ->
      run_script [name; path] files
      = Outcome (HEADER ++ filter_map line_output (before ++ after))
          [] None 0).
Proof.
  intros Hs.
  assert (Hk : startswith (strip line) (py "#") || is_empty (strip line)
               = true).
  { destruct Hs as [->| ->]; [now rewrite orb_true_r|reflexivity]. }
  assert (H : forall w, process_line line w = (Ok tt, w)).
  { intros w. unfold process_line. now rewrite Hk. }
  split; [exact H|]. split.
  - intros before after. now apply for_each_drop.
  - intros files name path content before after Hf Hsp.
    rewrite (run_reads _ name _ Hf), Hsp, !filter_map_app.
    cbn [filter_map]. unfold line_output at 2. now rewrite Hk.
Qed.

Lemma C4_blank_and_comment_lines_skipped_witness :
  (forall w, process_line (py "   # FOO := bar") w = (Ok tt, w)) /\
  (forall before after w,
      for_each (before ++ py "   # FOO := bar" :: after) process_line w
      = for_each (before ++ after) process_line w) /\
  (forall files name path content before after,
      files path = Content content ->
      split 10 content = before ++ py "   # FOO := bar" :: after ->
      run_script [name; path] files
      = Outcome (HEADER ++ filter_map line_output (before ++ after))
          [] None 0).
Proof.
  apply (C4_blank_and_comment_lines_skipped (py "   # FOO := bar")).
  right. reflexivity.
Defined.

(** C5: after the header, standard output is the filter-map of the line
    translation over the input lines, so two lines printed for two input
    lines stand in the order of those input lines. *)
Theorem C5_output_in_input_order
  (files : pystr -> read_result) (name path content : pystr) :
  files path = Content content ->
  let lines := split 10 content in
  let body := skipn 3 (out (run_script [name; path] files)) in
  body = filter_map line_output lines /\
  (forall i j li lj oi oj,
      i < j ->
      nth_error lines i = Some li -> nth_error lines j = Some lj ->
      line_output li = Some oi -> line_output lj = Some oj ->
      exists i' j',
        i' < j' /\ nth_error body i' = Some oi /\ nth_error body j' = Some oj).
Proof.
  intros Hf lines body.
  assert (Hb : body = filter_map line_output lines).
  { unfold body. now rewrite (run_reads _ name _ Hf). }
  split; [exact Hb|].
  intros i j li lj oi oj Hij Hi Hj Hoi Hoj. rewrite Hb.
  destruct (nth_error_two _ Hij Hi Hj) as (l1 & l2 & l3 & ->).
  exists (List.length (filter_map line_output l1)),
         (List.length (filter_map line_output l1
                         ++ oi :: filter_map line_output l2)).
  rewrite filter_map_app. cbn [filter_map]. rewrite Hoi.
  rewrite filter_map_app. cbn [filter_map]. rewrite Hoj.
  repeat split.
  - rewrite length_app. simpl. lia.
  - rewrite nth_error_app2 by lia. now rewrite Nat.sub_diag.
  - change (filter_map line_output l1
              ++ oi :: filter_map line_output l2
              ++ oj :: filter_map line_output l3)
      with (filter_map line_output l1
              ++ (oi :: filter_map line_output l2)
              ++ oj :: filter_map line_output l3).
    rewrite app_assoc, nth_error_app2 by lia. now rewrite Nat.sub_diag.
Qed.

Lemma C5_output_in_input_order_witness :
  let lines := split 10 config_mk in
  let body := skipn 3 (out (run_script [prog; py "config.mk"] sample_fs)) in
  body = filter_map line_output lines /\
  (forall i j li lj oi oj,
      i < j ->
      nth_error lines i = Some li -> nth_error lines j = Some lj ->
      line_output li = Some oi -> line_output lj = Some oj ->
      exists i' j',
        i' < j' /\ nth_error body i' = Some oi /\ nth_error body j' = Some oj).
Proof.
  apply (@C5_output_in_input_order sample_fs prog (py "config.mk") config_mk).
  reflexivity.
Defined.

(** C6: with an argument vector of any length but two (the script's name
    and one path), the run ends with status 1, the usage line alone on
    the error stream and nothing on standard output. *)
Theorem C6_usage_error (files : pystr -> read_result) (argv : list pystr) :
  List.length argv <> 2 ->
  let r := run_script argv files in
  status r <> 0%N /\
  err r = [py "Usage: mk2bash.py <make_config_file>"] /\
  out r = [] /\
  uncaught r = None.
Proof.
  intros Hn r. unfold r. rewrite (@run_usage files argv Hn). cbn.
  repeat split. discriminate.
Qed.

Lemma C6_usage_error_witness :
  let r := run_script [prog; py "config.mk"; py "mixed.mk"] sample_fs in
  status r <> 0%N /\
  err r = [py "Usage: mk2bash.py <make_config_file>"] /\
  out r = [] /\
  uncaught r = None.
Proof.
  apply (@C6_usage_error sample_fs [prog; py "config.mk"; py "mixed.mk"]).
  simpl. lia.
Defined.

(** C7: when the file of the given path does not exist, the run ends with
    status 1, the line [Error: Could not find <path>] alone on the error
    stream and nothing on standard output. *)
Theorem C7_missing_file (files : pystr -> read_result) (name path : pystr) :
  files path = Fails FileNotFoundError ->
  let r := run_script [name; path] files in
  status r <> 0%N /\
  err r = [py "Error: Could not find " ++ path] /\
  out r = [] /\
  uncaught r = None.
Proof.
  intros Hf r. unfold r. rewrite (@run_read_fails files name path _ Hf). cbn.
  repeat split. discriminate.
Qed.

Lemma C7_missing_file_witness :
  let r := run_script [prog; py "absent.mk"] sample_fs in
  status r <> 0%N /\
  err r = [py "Error: Could not find " ++ py "absent.mk"] /\
  out r = [] /\
  uncaught r = None.
Proof.
  apply (@C7_missing_file sample_fs prog (py "absent.mk")).
  reflexivity.
Defined.

(** C8: a run on a file that can be read prints the two comment lines of
    the header and an empty line, then the assignment lines and nothing
    after them: one line [NAME=value'] for each input line that reads as
    an assignment, in the order of the input, and no line that does not
    come from such an input line; nothing goes to the error stream and
    the status is 0. *)
Theorem C8_successful_run
  (files : pystr -> read_result) (name path content : pystr) :
  files path = Content content ->
  let r := run_script [name; path] files in
  let body := filter_map line_output (split 10 content) in
  out r = py "# Generated from config.mk - DO NOT EDIT DIRECTLY"
          :: py "# Edit config.mk instead and run 'make .github/workflows/config.env'"
          :: [] :: body /\
  Forall (fun o => exists line NAME value,
              In line (split 10 content) /\
              line_output line = Some o /\
              shell_assignment o NAME value) body /\
  (forall line NAME value,
      In line (split 10 content) ->
      assignment (strip line) NAME value ->
      exists value',
        Rewritten value value' /\
        line_output line = Some (NAME ++ py "=" ++ value') /\
        In (NAME ++ py "=" ++ value') body) /\
  (forall o,
      In o body ->
      exists line NAME value value',
        In line (split 10 content) /\
        assignment (strip line) NAME value /\
        Rewritten value value' /\
        o = NAME ++ py "=" ++ value') /\
  err r = [] /\ uncaught r = None /\ status r = 0%N /\
  error_stream r = [].
Proof.
  intros Hf r body. unfold r. rewrite (run_reads _ name _ Hf). cbn.
  assert (Hnl : forall line, In line (split 10 content) -> ~ In 10%N line).
  { intros line Hin.
    exact (proj1 (Forall_forall _ _) (split_no_sep 10 content) _ Hin). }
  split; [reflexivity|]. split; [|split; [|split]].
  - apply Forall_forall. intros o Ho.
    destruct (in_filter_map _ _ _ Ho) as (line & Hin & Hl).
    destruct (line_output_shape _ (Hnl _ Hin) Hl)
      as (NAME & value & -> & Hne & Hn & _).
    exists line, NAME, value. now repeat split.
  - intros line NAME value Hin Ha.
    pose proof (@line_output_assignment line _ _ (Hnl _ Hin) Ha) as Hl.
    exists (re_sub EXPANSION_RE EXPANSION_TMPL value).
    split; [apply re_sub_rewritten|]. split; [exact Hl|].
    exact (filter_map_in _ _ _ Hin Hl).
  - intros o Ho.
    destruct (in_filter_map _ _ _ Ho) as (line & Hin & Hl).
    destruct (line_output_inv _ (Hnl _ Hin) Hl) as (NAME & value & Ha & ->).
    exists line, NAME, value, (re_sub EXPANSION_RE EXPANSION_TMPL value).
    repeat split; trivial. apply re_sub_rewritten.
  - now repeat split.
Qed.

Lemma C8_successful_run_witness :
  let r := run_script [prog; py "mixed.mk"] sample_fs in
  let body := filter_map line_output (split 10 mixed_mk) in
  out r = py "# Generated from config.mk - DO NOT EDIT DIRECTLY"
          :: py "# Edit config.mk instead and run 'make .github/workflows/config.env'"
          :: [] :: body /\
  Forall (fun o => exists line NAME value,
              In line (split 10 mixed_mk) /\
              line_output line = Some o /\
              shell_assignment o NAME value) body /\
  (forall line NAME value,
      In line (split 10 mixed_mk) ->
      assignment (strip line) NAME value ->
      exists value',
        Rewritten value value' /\
        line_output line = Some (NAME ++ py "=" ++ value') /\
        In (NAME ++ py "=" ++ value') body) /\
  (forall o,
      In o body ->
      exists line NAME value value',
        In line (split 10 mixed_mk) /\
        assignment (strip line) NAME value /\
        Rewritten value value' /\
        o = NAME ++ py "=" ++ value') /\
  err r = [] /\ uncaught r = None /\ status r = 0%N /\
  error_stream r = [].
Proof.
  apply (@C8_successful_run sample_fs prog (py "mixed.mk") mixed_mk).
  reflexivity.
Defined.

(** C10: every line a run prints after the header is [NAME=value] with a
    name of one or more uppercase letters and underscores and a value
    that neither begins nor ends with whitespace. *)
Theorem C10_emitted_values_trimmed
  (files : pystr -> read_result) (name path content o : pystr) :
  files path = Content content ->
  In o (skipn 3 (out (run_script [name; path] files))) ->
  exists NAME value,
    o = NAME ++ py "=" ++ value /\
    NAME <> [] /\ forallb upper_or_underscore NAME = true /\
    no_lead_space value = true /\ no_trail_space value = true.
Proof.
  intros Hf. rewrite (run_reads _ name _ Hf). cbn [out HEADER app skipn].
  intros Ho. destruct (in_filter_map _ _ _ Ho) as (line & Hin & Hl).
  assert (Hnl : ~ In 10%N line).
  { exact (proj1 (Forall_forall _ _) (split_no_sep 10 content) _ Hin). }
  exact (line_output_shape _ Hnl Hl).
Qed.

Lemma C10_emitted_values_trimmed_witness :
  exists NAME value,
    py "OUT_DIR=build/${MODE}" = NAME ++ py "=" ++ value /\
    NAME <> [] /\ forallb upper_or_underscore NAME = true /\
    no_lead_space value = true /\ no_trail_space value = true.
Proof.
  apply (@C10_emitted_values_trimmed sample_fs prog (py "mixed.mk") mixed_mk
           (py "OUT_DIR=build/${MODE}")).
  - reflexivity.
  - vm_compute. auto.
Defined.

(** C9, as stated, fails: in the value [$($()] the empty pair of
    parentheses follows an open [$(], whose reference it closes; the line
    printed is [EMPTY=${$(}], with no [$()] left in it. *)
Lemma C9_empty_parens_counterexample :
  assignment (strip nested_mk) (py "EMPTY") (py "$(" ++ py "$()" ++ []) /\
  out (run_script [prog; py "nested.mk"] sample_fs)
  = HEADER ++ [py "EMPTY=${$(}"] /\
  ~ (exists a b, py "${$(}" = a ++ py "$()" ++ b).
Proof.
  split; [|split].
  - exists (py " "), (py " "). repeat split. discriminate.
  - reflexivity.
  - intros (a & b & E). vm_compute in E.
    do 5 (destruct a as [|? a]; [discriminate E|]; simpl in E;
          injection E as _ E).
    destruct a; discriminate E.
Qed.

(** C9, amended: the substitution rewrites [$(X)] only for a non-empty
    [X], so an empty pair of parentheses [$()] is never a reference of
    its own; it is printed unchanged wherever every [$(] before it in the
    value is closed by a parenthesis before it, the text on either side
    of it rewritten as usual. *)
Theorem C9_empty_parens_kept
  (files : pystr -> read_result)
  (name path content line NAME before after : pystr) :
  files path = Content content ->
  In line (split 10 content) ->
  assignment (strip line) NAME (before ++ py "$()" ++ after) ->
  closed_refs before = true ->
  ~ starts_with_ref (py "$()" ++ after) /\
  exists before' after',
    Rewritten before before' /\ Rewritten after after' /\
    In (NAME ++ py "=" ++ before' ++ py "$()" ++ after')
       (out (run_script [name; path] files)).
Proof.
  intros Hf Hin Ha Hc. split.
  { change (py "$()") with [36%N; 40%N; 41%N].
    intros (X & t & Hne & HX & E). destruct X as [|x X]; [contradiction|].
    injection E as <- _. discriminate. }
  assert (Hnl : ~ In 10%N line).
  { exact (proj1 (Forall_forall _ _) (split_no_sep 10 content) _ Hin). }
  exists (re_sub EXPANSION_RE EXPANSION_TMPL before),
         (re_sub EXPANSION_RE EXPANSION_TMPL after).
  split; [apply re_sub_rewritten|]. split; [apply re_sub_rewritten|].
  rewrite (run_reads _ name _ Hf). cbn [out]. apply in_or_app. right.
  apply (filter_map_in _ _ _ Hin).
  rewrite (@line_output_assignment line _ _ Hnl Ha). do 3 f_equal.
  apply (@Rewritten_fun (before ++ py "$()" ++ after)).
  - apply re_sub_rewritten.
  - apply Rewritten_empty_ref; [exact Hc| |]; apply re_sub_rewritten.
Qed.

Lemma C9_empty_parens_kept_witness :
  ~ starts_with_ref (py "$()" ++ py "$(B)") /\
  exists before' after',
    Rewritten (py "$(A)") before' /\ Rewritten (py "$(B)") after' /\
    In (py "PAIR" ++ py "=" ++ before' ++ py "$()" ++ after')
       (out (run_script [prog; py "mixed.mk"] sample_fs)).
Proof.
  apply (@C9_empty_parens_kept sample_fs prog (py "mixed.mk") mixed_mk
           (py "PAIR := $(A)$()$(B)") (py "PAIR") (py "$(A)") (py "$(B)")).
  - reflexivity.
  - vm_compute. auto 10.
  - exists (py " "), (py " "). repeat split. discriminate.
  - reflexivity.
Defined.

(** C2: whenever the named file cannot be read, because it does not
    exist or because it exists and may not be read, or for any other
    reason, the error stream receives one message that tells the failure,
    the status is not 0 and nothing is printed on standard output, not
    even the header. For a missing file the message is the script's own
    line [Error: Could not find <path>]; every other exception passes the
    handler, which names [FileNotFoundError] only, and the message is the
    traceback the interpreter writes for it. *)
Theorem C2_read_failure_reported
  (files : pystr -> read_result) (name path : pystr) (e : read_error) :
  files path = Fails e ->
  let r := run_script [name; path] files in
  status r <> 0%N /\
  out r = [] /\
  error_stream r <> [] /\
  error_stream r
  = [match e with
     | FileNotFoundError => Printed (py "Error: Could not find " ++ path)
     | _ => Traceback (ReadError e)
     end].
Proof.
  intros Hf r. unfold r. rewrite (@run_read_fails files name path _ Hf).
  destruct e; cbn; repeat split; discriminate.
Qed.

Lemma C2_read_failure_reported_witness :
  let r := run_script [prog; py "secret.mk"] sample_fs in
  status r <> 0%N /\
  out r = [] /\
  error_stream r <> [] /\
  error_stream r = [Traceback (ReadError PermissionError)].
Proof.
  apply (@C2_read_failure_reported sample_fs prog (py "secret.mk")
           PermissionError).
  reflexivity.
Defined.

(* ================================================================= *)
(** ** Beyond the claims: stripping and splitting *)

Lemma forallb_rev {A} (f : A -> bool) (l : list A) :
  forallb f (rev l) = forallb f l.
Proof.
  induction l as [|a l IH]; [reflexivity|]. simpl.
  rewrite forallb_app, IH. simpl. rewrite andb_true_r. apply andb_comm.
Qed.

Lemma rstrip_spaces (s ws : pystr) :
  forallb isspace ws = true -> rstrip (s ++ ws) = rstrip s.
Proof.
  intros H. unfold rstrip. rewrite rev_app_distr, lstrip_spaces; [reflexivity|].
  now rewrite forallb_rev.
Qed.

Lemma lstrip_app (s t : pystr) :
  lstrip s <> [] -> lstrip (s ++ t) = lstrip s ++ t.
Proof.
  unfold lstrip. induction s as [|c s IH]; simpl; [contradiction|].
  destruct (isspace c); [exact IH|reflexivity].
Qed.

Lemma lstrip_nil_spaces (s : pystr) :
  lstrip s = [] -> forallb isspace s = true.
Proof.
  intros H. rewrite <- (takewhile_dropwhile isspace s).
  unfold lstrip in H. rewrite H, app_nil_r. apply takewhile_forallb.
Qed.

Lemma strip_spaces (ws1 s ws2 : pystr) :
  forallb isspace ws1 = true -> forallb isspace ws2 = true ->
  strip (ws1 ++ s ++ ws2) = strip s.
Proof.
  intros H1 H2. unfold strip. rewrite lstrip_spaces by exact H1.
  destruct (lstrip s) as [|c t] eqn:E.
  - assert (Hs : forallb isspace (s ++ ws2) = true).
    { rewrite forallb_app, H2, (lstrip_nil_spaces _ E). reflexivity. }
    rewrite <- (app_nil_r (s ++ ws2)), lstrip_spaces by exact Hs.
    reflexivity.
  - rewrite lstrip_app by (rewrite E; discriminate).
    rewrite E. now apply rstrip_spaces.
Qed.

Lemma rstrip_fixed (s : pystr) : no_trail_space s = true -> rstrip s = s.
Proof.
  intros H. unfold rstrip. rewrite lstrip_fixed by exact H.
  apply rev_involutive.
Qed.

Lemma split_app (sep : N) (a b : pystr) :
  split sep (a ++ sep :: b) = split sep a ++ split sep b.
Proof.
  induction a as [|c a IH]; simpl.
  - now rewrite N.eqb_refl.
  - destruct (c =? sep)%N; [now rewrite IH|].
    rewrite IH. pose proof (split_nonempty sep a) as Hne.
    destruct (split sep a) as [|l ls]; [contradiction|reflexivity].
Qed.

Lemma split_one_line (sep : N) (l : pystr) :
  ~ In sep l -> split sep l = [l].
Proof.
  induction l as [|c l IH]; intros H; simpl; [reflexivity|].
  destruct (N.eqb_spec c sep) as [->|_]; [exfalso; apply H; now left|].
  rewrite IH; [reflexivity|]. intros Hin. apply H. now right.
Qed.

Lemma split_stdout_text (printed : list pystr) :
  Forall (fun s => ~ In 10%N s) printed ->
  split 10 (stdout_text printed) = printed ++ [[]].
Proof.
  induction 1 as [|l ls Hl _ IH]; [reflexivity|].
  unfold stdout_text in *. cbn [flat_map].
  rewrite <- app_assoc. cbn [app].
  rewrite split_app, IH, (@split_one_line 10%N l Hl). reflexivity.
Qed.

(* ================================================================= *)
(** ** Beyond the claims: the substitution *)

Lemma braced_refl (X : pystr) :
  Forall2 (fun a b => braced a b = true) X X.
Proof.
  induction X as [|c X IH]; constructor; [|exact IH].
  unfold braced. now rewrite N.eqb_refl.
Qed.

Lemma Rewritten_braced (s s' : pystr) :
  Rewritten s s' -> Forall2 (fun a b => braced a b = true) s s'.
Proof.
  induction 1 as [|X rest rest' Hne HX Hr IH|c rest rest' Hno Hr IH].
  - constructor.
  - change (py "$(") with [36%N; 40%N]. change (py "${") with [36%N; 123%N].
    change (py ")") with [41%N]. change (py "}") with [125%N].
    cbn [app]. constructor; [reflexivity|]. constructor; [reflexivity|].
    apply Forall2_app; [apply braced_refl|].
    constructor; [reflexivity|exact IH].
  - constructor; [|exact IH]. unfold braced. now rewrite N.eqb_refl.
Qed.

Lemma braced_newline (a : N) : braced a 10 = true -> a = 10%N.
Proof.
  unfold braced. rewrite !andb_false_r, !orb_false_r.
  now intros H%N.eqb_eq.
Qed.

Lemma Rewritten_no_newline (s s' : pystr) :
  Rewritten s s' -> ~ In 10%N s -> ~ In 10%N s'.
Proof.
  intros H%Rewritten_braced.
  induction H as [|a b s s' Hab _ IH]; [trivial|].
  intros Hs [->|Hin].
  - apply Hs. left. now apply braced_newline.
  - apply IH; [|exact Hin]. intros Hi. apply Hs. now right.
Qed.

Lemma startswith_nil (s : pystr) : startswith s [] = true.
Proof. now destruct s. Qed.

Lemma ref_has_open (s : pystr) : starts_with_ref s -> has_open s = true.
Proof.
  intros (X & rest & _ & _ & ->).
  change (py "$(") with [36%N; 40%N]. cbn [app has_open].
  change (py "(") with [40%N]. cbn [startswith].
  now rewrite startswith_nil.
Qed.

Lemma ref_has_rparen (s : pystr) :
  starts_with_ref s -> existsb (N.eqb 41) s = true.
Proof.
  intros (X & rest & _ & _ & ->).
  change (py "$(") with [36%N; 40%N]. change (py ")") with [41%N].
  cbn [app existsb]. change (41 =? 36)%N with false.
  change (41 =? 40)%N with false. cbn [orb].
  rewrite existsb_app. cbn [existsb]. rewrite N.eqb_refl.
  cbn [orb]. apply orb_true_r.
Qed.

(** Without a [$(], or without a closing parenthesis, a value is its
    own rewriting. *)
Lemma Rewritten_same (s : pystr) :
  has_open s = false \/ existsb (N.eqb 41) s = false -> Rewritten s s.
Proof.
  induction s as [|c s IH]; intros H; [constructor|].
  apply Rw_chr.
  - intros Hr. destruct H as [H|H].
    + rewrite (ref_has_open Hr) in H. discriminate.
    + rewrite (ref_has_rparen Hr) in H. discriminate.
  - apply IH. destruct H as [H|H]; [left|right].
    + cbn [has_open] in H. now apply orb_false_elim in H as [_ H].
    + cbn [existsb] in H. now apply orb_false_elim in H as [_ H].
Qed.

(** Text added after closed references cannot turn a plain character
    into the opening of a reference, unless it supplies the [(] for a
    final [$]. *)
Lemma no_ref_grows (c : N) (rest q : pystr) :
  closed_refs (c :: rest) = true ->
  startswith q (py "(") = false ->
  ~ starts_with_ref (c :: rest) ->
  ~ starts_with_ref (c :: rest ++ q).
Proof.
  intros Hc Hq Hno (X & tail & Hne & HX & E).
  change (py "$(") with [36%N; 40%N] in E. change (py ")") with [41%N] in E.
  simpl in E. injection E as -> E.
  destruct rest as [|b rest1].
  { simpl in E. subst q. change (py "(") with [40%N] in Hq.
    cbn [startswith] in Hq. rewrite startswith_nil in Hq. discriminate Hq. }
  simpl in E. injection E as -> E.
  simpl in Hc. apply andb_prop in Hc as [Hc _].
  replace (startswith rest1 []) with true in Hc by now destruct rest1.
  destruct (first_rparen _ Hc) as (a & bb & Ha & Et).
  rewrite Et, <- app_assoc in E. simpl in E.
  destruct (rparen_stop _ _ _ _ Ha HX E) as [-> _].
  apply Hno. exists X, bb. repeat split; [exact Hne|exact HX|].
  now rewrite Et.
Qed.

Lemma Rewritten_app (p p' q q' : pystr) :
  closed_refs p = true -> startswith q (py "(") = false ->
  Rewritten p p' -> Rewritten q q' -> Rewritten (p ++ q) (p' ++ q').
Proof.
  intros Hc Hq Hp Hr.
  induction Hp as [|X rest rest' Hne HX Hrest IH|c rest rest' Hno Hrest IH].
  - exact Hr.
  - rewrite <- !app_assoc. apply Rw_ref; [exact Hne|exact HX|].
    apply IH. rewrite !app_assoc in Hc. now apply closed_refs_app in Hc.
  - simpl. apply Rw_chr.
    + now apply no_ref_grows.
    + apply IH. simpl in Hc. now apply andb_prop in Hc as [_ Hc].
Qed.

(* ================================================================= *)
(** ** Beyond the claims: lines and runs *)

Lemma filter_map_none {A B} (f : A -> option B) (l : list A) :
  (forall a, In a l -> f a = None) -> filter_map f l = [].
Proof.
  induction l as [|a l IH]; intros H; [reflexivity|]. simpl.
  rewrite (H a) by now left. apply IH. intros x Hx. apply H. now right.
Qed.

Lemma line_output_unparsed (line : pystr) :
  parse_assignment (strip line) = None -> line_output line = None.
Proof.
  intros H. unfold line_output.
  destruct (startswith (strip line) (py "#") || is_empty (strip line));
    [reflexivity|].
  now rewrite re_match_assign_none.
Qed.

Lemma process_line_unparsed (line : pystr) (w : world) :
  parse_assignment (strip line) = None -> process_line line w = (Ok tt, w).
Proof.
  intros H. unfold process_line.
  destruct (startswith (strip line) (py "#") || is_empty (strip line));
    [reflexivity|].
  now rewrite re_match_assign_none.
Qed.

(** A name followed by anything but whitespace or a colon is no
    assignment. *)
Lemma parse_name_then_other (NAME rest : pystr) (c : N) :
  forallb upper_or_underscore NAME = true ->
  upper_or_underscore c = false -> isspace c = false -> c <> 58%N ->
  parse_assignment (NAME ++ c :: rest) = None.
Proof.
  intros Hn Hc Hs Hne. unfold parse_assignment.
  destruct (run_then_stop upper_or_underscore NAME c rest Hn Hc) as [-> ->].
  unfold lstrip. cbn [dropwhile]. rewrite Hs.
  destruct NAME as [|n0 NAME]; [reflexivity|].
  destruct rest as [|b rest]; [reflexivity|].
  apply N.eqb_neq in Hne. now rewrite Hne.
Qed.

(** A line the script printed is not a line the script reads as an
    assignment. *)
Lemma line_output_of_shell_line (NAME value : pystr) :
  NAME <> [] -> forallb upper_or_underscore NAME = true ->
  no_lead_space value = true -> no_trail_space value = true ->
  line_output (NAME ++ py "=" ++ value) = None.
Proof.
  intros Hne Hn Hl Ht. change (py "=") with [61%N]. cbn [app].
  assert (Hs : strip (NAME ++ 61%N :: value) = NAME ++ 61%N :: value).
  { unfold strip. rewrite lstrip_fixed.
    - apply rstrip_fixed. destruct value as [|v value].
      + now rewrite no_trail_app by discriminate.
      + change (NAME ++ 61%N :: v :: value)
          with (NAME ++ [61%N] ++ v :: value).
        rewrite app_assoc, no_trail_app by discriminate. exact Ht.
    - destruct NAME as [|n0 NAME]; [contradiction|]. simpl in *.
      apply andb_prop in Hn as [Hn _]. now rewrite (upper_not_space _ Hn). }
  apply line_output_unparsed. rewrite Hs.
  apply parse_name_then_other; [exact Hn|reflexivity|reflexivity|discriminate].
Qed.

Lemma header_not_read (h : pystr) : In h HEADER -> line_output h = None.
Proof. intros [<-|[<-|[<-|[]]]]; reflexivity. Qed.

Lemma header_no_newline : Forall (fun s => ~ In 10%N s) HEADER.
Proof.
  repeat constructor; vm_compute; intuition discriminate.
Qed.

Lemma line_output_no_newline (line o : pystr) :
  ~ In 10%N line -> line_output line = Some o -> ~ In 10%N o.
Proof.
  intros Hnl Ho.
  destruct (line_output_inv _ Hnl Ho) as (NAME & v & Ha & ->).
  destruct Ha as (ws1 & ws2 & Es & _).
  intros Hin. apply in_app_or in Hin as [H|H].
  - apply Hnl, strip_incl. rewrite Es. apply in_or_app. now left.
  - apply in_app_or in H as [[E|[]]|H]; [discriminate|].
    revert H. apply (Rewritten_no_newline (re_sub_rewritten v)).
    intros Hv. apply Hnl, strip_incl. rewrite Es.
    rewrite !app_assoc. apply in_or_app. now right.
Qed.

Lemma body_no_newline (content : pystr) :
  Forall (fun s => ~ In 10%N s) (filter_map line_output (split 10 content)).
Proof.
  apply Forall_forall. intros o Ho.
  destruct (in_filter_map _ _ _ Ho) as (line & Hin & Hl).
  apply (@line_output_no_newline line o); [|exact Hl].
  exact (proj1 (Forall_forall _ _) (split_no_sep 10 content) _ Hin).
Qed.

Lemma body_not_read (content o : pystr) :
  In o (filter_map line_output (split 10 content)) -> line_output o = None.
Proof.
  intros Ho. destruct (in_filter_map _ _ _ Ho) as (line & Hin & Hl).
  assert (Hnl : ~ In 10%N line).
  { exact (proj1 (Forall_forall _ _) (split_no_sep 10 content) _ Hin). }
  destruct (line_output_shape _ Hnl Hl)
    as (NAME & value & -> & Hne & Hn & Hlead & Htrail).
  now apply line_output_of_shell_line.
Qed.

(* ================================================================= *)
(** ** Further properties of the script *)

(** X1: the status of a run is 0 exactly when there are two arguments
    and the named file can be read; then the error stream is empty and
    standard output opens with the header. In every other case the status
    is 1, standard output is empty and the error stream holds exactly one
    message: a line of the script, or the interpreter's traceback. *)
Theorem X1_run_outcomes (argv : list pystr) (files : pystr -> read_result) :
  let r := run_script argv files in
  (status r = 0%N <->
   exists name path content,
     argv = [name; path] /\ files path = Content content) /\
  (status r = 0%N ->
   error_stream r = [] /\ firstn 3 (out r) = HEADER) /\
  (status r <> 0%N ->
   status r = 1%N /\ out r = [] /\ List.length (error_stream r) = 1).
Proof.
  intros r. unfold r.
  destruct argv as [|name [|path [|x rest]]].
  1,2,4: rewrite run_usage by (simpl; lia); cbn; repeat split;
    try discriminate;
    intros (n & p & c & [=] & _).
  destruct (files path) as [content|e] eqn:Ef.
  - rewrite (run_reads _ name _ Ef). cbn. repeat split; try congruence.
    intros _. now exists name, path, content.
  - rewrite (@run_read_fails files name path e Ef).
    destruct e; cbn; repeat split; try discriminate;
      intros (n & p & c & [= <- <-] & Hc); congruence.
Qed.

(** X2: a run depends on its arguments and on the file system through
    the content of the one file named by the second argument only: the
    script's own name and every other file are immaterial. *)
Theorem X2_only_the_named_file
  (files1 files2 : pystr -> read_result) (name1 name2 path : pystr) :
  files1 path = files2 path ->
  run_script [name1; path] files1 = run_script [name2; path] files2.
Proof.
  intros E. destruct (files1 path) as [content|e] eqn:E1; symmetry in E.
  - now rewrite (run_reads _ name1 _ E1), (run_reads _ name2 _ E).
  - now rewrite (@run_read_fails files1 name1 path e E1),
               (@run_read_fails files2 name2 path e E).
Qed.

Lemma X2_only_the_named_file_witness :
  run_script [prog; py "mixed.mk"] sample_fs
  = run_script [py "./scripts/mk2bash.py"; py "mixed.mk"] more_fs.
Proof.
  apply (@X2_only_the_named_file sample_fs more_fs prog
           (py "./scripts/mk2bash.py") (py "mixed.mk")).
  reflexivity.
Defined.

(** X3: for two files joined by a newline the script prints the header
    once, then the assignment lines of the first file, then those of the
    second. *)
Theorem X3_joined_files
  (files : pystr -> read_result) (name pa pb pab a b : pystr) :
  files pa = Content a -> files pb = Content b ->
  files pab = Content (a ++ 10%N :: b) ->
  out (run_script [name; pab] files)
  = HEADER ++ skipn 3 (out (run_script [name; pa] files))
           ++ skipn 3 (out (run_script [name; pb] files)).
Proof.
  intros Ha Hb Hab.
  rewrite (run_reads _ name _ Ha), (run_reads _ name _ Hb),
          (run_reads _ name _ Hab).
  cbn [out HEADER app skipn]. now rewrite split_app, filter_map_app.
Qed.

Lemma X3_joined_files_witness :
  out (run_script [prog; py "both.mk"] more_fs)
  = HEADER ++ skipn 3 (out (run_script [prog; py "config.mk"] more_fs))
           ++ skipn 3 (out (run_script [prog; py "mixed.mk"] more_fs)).
Proof.
  apply (@X3_joined_files more_fs prog (py "config.mk") (py "mixed.mk")
           (py "both.mk") config_mk mixed_mk); reflexivity.
Defined.

(** X4: whitespace before and after a line, indentation or a trailing
    carriage return say, changes nothing of what the loop does with the
    line. *)
Theorem X4_surrounding_whitespace (ws1 line ws2 : pystr) :
  forallb isspace ws1 = true -> forallb isspace ws2 = true ->
  process_line (ws1 ++ line ++ ws2) = process_line line /\
  line_output (ws1 ++ line ++ ws2) = line_output line.
Proof.
  intros H1 H2. unfold process_line, line_output.
  now rewrite (@strip_spaces ws1 line ws2 H1 H2).
Qed.

Lemma X4_surrounding_whitespace_witness :
  process_line ([9; 32]%N ++ py "FOO := bar" ++ [32; 13]%N)
  = process_line (py "FOO := bar") /\
  line_output ([9; 32]%N ++ py "FOO := bar" ++ [32; 13]%N)
  = line_output (py "FOO := bar").
Proof.
  apply (@X4_surrounding_whitespace [9; 32]%N (py "FOO := bar") [32; 13]%N);
    reflexivity.
Defined.

(** X5: a line on which the run of uppercase letters and underscores is
    followed by any character but whitespace or a colon (a digit or a
    lowercase letter in the name, a name that does not start in
    uppercase) is dropped without output or error. *)
Theorem X5_other_names_dropped (line NAME rest : pystr) (c : N) :
  strip line = NAME ++ c :: rest ->
  forallb upper_or_underscore NAME = true ->
  upper_or_underscore c = false -> isspace c = false -> c <> 58%N ->
  (forall w, process_line line w = (Ok tt, w)) /\ line_output line = None.
Proof.
  intros Es Hn Hc Hs Hne.
  assert (Hp : parse_assignment (strip line) = None).
  { rewrite Es. now apply parse_name_then_other. }
  split.
  - intros w. now apply process_line_unparsed.
  - now apply line_output_unparsed.
Qed.

Lemma X5_other_names_dropped_witness :
  (forall w, process_line (py "FOO2 := bar") w = (Ok tt, w)) /\
  line_output (py "FOO2 := bar") = None.
Proof.
  apply (@X5_other_names_dropped (py "FOO2 := bar") (py "FOO")
           (py " := bar") 50%N); try reflexivity.
  discriminate.
Defined.

(** X6: the value printed for an assignment line has the length of the
    value read, and differs from it only where a parenthesis became the
    matching brace. *)
Theorem X6_only_parentheses_change
  (files : pystr -> read_result) (name path content line NAME value : pystr) :
  files path = Content content ->
  In line (split 10 content) ->
  assignment (strip line) NAME value ->
  exists value',
    line_output line = Some (NAME ++ py "=" ++ value') /\
    In (NAME ++ py "=" ++ value') (out (run_script [name; path] files)) /\
    Forall2 (fun a b => braced a b = true) value value' /\
    List.length value' = List.length value.
Proof.
  intros Hf Hin Ha.
  assert (Hnl : ~ In 10%N line).
  { exact (proj1 (Forall_forall _ _) (split_no_sep 10 content) _ Hin). }
  pose proof (@line_output_assignment line _ _ Hnl Ha) as Hl.
  pose proof (Rewritten_braced (re_sub_rewritten value)) as Hb.
  exists (re_sub EXPANSION_RE EXPANSION_TMPL value). repeat split.
  - exact Hl.
  - rewrite (run_reads _ name _ Hf). cbn [out]. apply in_or_app. right.
    exact (filter_map_in _ _ _ Hin Hl).
  - exact Hb.
  - symmetry. exact (Forall2_length Hb).
Qed.

Lemma X6_only_parentheses_change_witness :
  exists value',
    line_output (py "BAZ := $(FOO)/baz") = Some (py "BAZ" ++ py "=" ++ value') /\
    In (py "BAZ" ++ py "=" ++ value')
       (out (run_script [prog; py "config.mk"] sample_fs)) /\
    Forall2 (fun a b => braced a b = true) (py "$(FOO)/baz") value' /\
    List.length value' = List.length (py "$(FOO)/baz").
Proof.
  apply (@X6_only_parentheses_change sample_fs prog (py "config.mk")
           config_mk (py "BAZ := $(FOO)/baz") (py "BAZ") (py "$(FOO)/baz")).
  - reflexivity.
  - vm_compute. auto.
  - exists (py " "), (py " "). repeat split. discriminate.
Defined.

(** X7: a value in which no [$(] occurs, or no closing parenthesis, is
    printed as it stands, with no quoting and no escaping. *)
Theorem X7_plain_values_verbatim
  (files : pystr -> read_result) (name path content line NAME value : pystr) :
  files path = Content content ->
  In line (split 10 content) ->
  assignment (strip line) NAME value ->
  has_open value = false \/ existsb (N.eqb 41) value = false ->
  line_output line = Some (NAME ++ py "=" ++ value) /\
  In (NAME ++ py "=" ++ value) (out (run_script [name; path] files)).
Proof.
  intros Hf Hin Ha Hv.
  assert (Hnl : ~ In 10%N line).
  { exact (proj1 (Forall_forall _ _) (split_no_sep 10 content) _ Hin). }
  assert (Hl : line_output line = Some (NAME ++ py "=" ++ value)).
  { rewrite (@line_output_assignment line _ _ Hnl Ha). do 3 f_equal.
    exact (Rewritten_fun (re_sub_rewritten value) (Rewritten_same _ Hv)). }
  split; [exact Hl|].
  rewrite (run_reads _ name _ Hf). cbn [out]. apply in_or_app. right.
  exact (filter_map_in _ _ _ Hin Hl).
Qed.

Lemma X7_plain_values_verbatim_witness :
  line_output (py "FOO := bar") = Some (py "FOO" ++ py "=" ++ py "bar") /\
  In (py "FOO" ++ py "=" ++ py "bar")
     (out (run_script [prog; py "config.mk"] sample_fs)).
Proof.
  apply (@X7_plain_values_verbatim sample_fs prog (py "config.mk")
           config_mk (py "FOO := bar") (py "FOO") (py "bar")).
  - reflexivity.
  - vm_compute. auto.
  - exists (py " "), (py " "). repeat split. discriminate.
  - left. reflexivity.
Defined.

(** X8: the substitution of the script works piece by piece: where every
    [$(] of the first piece is closed within it and the second piece does
    not begin with an opening parenthesis, substituting in the whole is
    substituting in each piece. *)
Theorem X8_substitution_by_pieces (p q : pystr) :
  closed_refs p = true -> startswith q (py "(") = false ->
  re_sub EXPANSION_RE EXPANSION_TMPL (p ++ q)
  = re_sub EXPANSION_RE EXPANSION_TMPL p
    ++ re_sub EXPANSION_RE EXPANSION_TMPL q.
Proof.
  intros Hc Hq. apply (@Rewritten_fun (p ++ q)).
  - apply re_sub_rewritten.
  - apply Rewritten_app; [exact Hc|exact Hq| |]; apply re_sub_rewritten.
Qed.

Lemma X8_substitution_by_pieces_witness :
  re_sub EXPANSION_RE EXPANSION_TMPL (py "$(A)/lib$" ++ py "$(B)/x")
  = re_sub EXPANSION_RE EXPANSION_TMPL (py "$(A)/lib$")
    ++ re_sub EXPANSION_RE EXPANSION_TMPL (py "$(B)/x").
Proof.
  apply (@X8_substitution_by_pieces (py "$(A)/lib$") (py "$(B)/x"));
    reflexivity.
Defined.

(** X9: the script does not read what it wrote: run on the text of its
    own standard output it prints the header and nothing else, with
    status 0. *)
Theorem X9_own_output_as_input
  (files : pystr -> read_result) (name1 name2 p q content : pystr) :
  files p = Content content ->
  files q = Content (stdout_text (out (run_script [name1; p] files))) ->
  run_script [name2; q] files = Outcome HEADER [] None 0.
Proof.
  intros Hp Hq. rewrite (run_reads _ name2 _ Hq), (run_reads _ name1 _ Hp).
  cbn [out]. rewrite split_stdout_text.
  2:{ apply Forall_app. split; [apply header_no_newline|].
      apply body_no_newline. }
  rewrite filter_map_none; [now rewrite app_nil_r|].
  intros o Ho. apply in_app_or in Ho as [Ho|[<-|[]]]; [|reflexivity].
  apply in_app_or in Ho as [Ho|Ho].
  - now apply header_not_read.
  - now apply body_not_read in Ho.
Qed.

Lemma X9_own_output_as_input_witness :
  run_script [prog; py "config.env"] more_fs = Outcome HEADER [] None 0.
Proof.
  apply (@X9_own_output_as_input more_fs prog prog (py "config.mk")
           (py "config.env") config_mk); reflexivity.
Defined.

(** X10: no string the script prints to standard output holds a newline,
    so the text of standard output splits at its newlines into exactly
    the strings printed, one line each. *)
Theorem X10_one_line_per_print (argv : list pystr)
  (files : pystr -> read_result) :
  let r := run_script argv files in
  Forall (fun s => ~ In 10%N s) (out r) /\
  split 10 (stdout_text (out r)) = out r ++ [[]].
Proof.
  intros r.
  assert (H : Forall (fun s => ~ In 10%N s) (out r)).
  { unfold r. destruct argv as [|name [|path [|x rest]]].
    1,2,4: rewrite run_usage by (simpl; lia); constructor.
    destruct (files path) as [content|e] eqn:Ef.
    - rewrite (run_reads _ name _ Ef). cbn [out]. apply Forall_app.
      split; [apply header_no_newline|apply body_no_newline].
    - rewrite (@run_read_fails files name path e Ef).
      destruct e; constructor. }
  split; [exact H|]. now apply split_stdout_text.
Qed.
